(** * A shallow embedding of [beetsplug/fetchart/itunes.py]

    The module is a client of the iTunes Store search service.  It builds a
    query, performs one HTTP request, decodes the JSON answer and turns every
    record of the [results] array into an [Item], [Artist], [Album] or
    [Track] object.

    The development follows the layout of the module: first the fragment of
    Python's value semantics the module relies on (truth values, [==], [in],
    subscription, [dict.get], [round], [/]), then the exceptions, the request
    layer, the query builders, the result classes and the convenience
    functions, and finally the properties of the specification. *)

From Stdlib Require Import ZArith List String Ascii Bool Lia.
From Stdlib Require Import DecimalString.
From Stdlib Require Import Floats.SpecFloat.
Import ListNotations.

Local Open Scope string_scope.
Local Open Scope Z_scope.

(* ================================================================== *)
(** * Python values *)
(* ================================================================== *)

(** Python floats are IEEE 754 binary64 numbers; [spec_float] is the
    Standard Library's specification of them (sign, mantissa, exponent).
    The floats that occur are the normalised ones [json.loads] and the
    arithmetic below produce. *)
Definition float := spec_float.
Definition prec : Z := 53.
Definition emax : Z := 1024.

(** What [json.loads] can produce, and what callers pass as parameters.
    A [dict] is kept as an association list in insertion order. *)
#[warnings="-register-all"]
Inductive pyval : Type :=
| PNone
| PBool (b : bool)
| PInt (z : Z)
| PFloat (f : float)
| PStr (s : string)
| PList (l : list pyval)
| PDict (d : list (string * pyval)).

Definition dict := list (string * pyval).

(** ** Exceptions *)

Inductive exn : Type :=
| KeyError (key : string)
| TypeError
| AttributeError
| UnboundLocalError (var : string)
| OverflowError
| ServiceException (type message : pyval)
| HTTPError (body : string)
| LibraryError (what : string).

Inductive result (A : Type) : Type :=
| Ok (a : A)
| Raise (e : exn).
Arguments Ok {A} a.
Arguments Raise {A} e.

Definition bind {A B} (c : result A) (k : A -> result B) : result B :=
  match c with
  | Ok a => k a
  | Raise e => Raise e
  end.

Notation "x <- c ;; k" := (bind c (fun x => k))
  (at level 61, c at next level, right associativity).

(** [try: c  except KeyError: h] *)
Definition except_KeyError {A} (c : result A) (h : result A) : result A :=
  match c with
  | Raise (KeyError _) => h
  | _ => c
  end.

(** ** Dictionaries *)

Fixpoint dict_get (k : string) (d : dict) : option pyval :=
  match d with
  | [] => None
  | (k', v) :: d' => if String.eqb k k' then Some v else dict_get k d'
  end.

Definition dict_has (k : string) (d : dict) : bool :=
  match dict_get k d with Some _ => true | None => false end.

(** [d[k] = v]: an existing key keeps its position, a new one goes last. *)
Fixpoint dict_set (k : string) (v : pyval) (d : dict) : dict :=
  match d with
  | [] => [(k, v)]
  | (k', v') :: d' =>
      if String.eqb k k' then (k, v) :: d' else (k', v') :: dict_set k v d'
  end.

Definition dict_keys (d : dict) : list string := map fst d.

(** ** Strings *)

(** [p in s] for two strings: [p] occurs in [s]. *)
Fixpoint str_contains (p s : string) : bool :=
  String.prefix p s ||
  match s with
  | EmptyString => false
  | String _ s' => str_contains p s'
  end.

(** [s.split(c)[0]]: the part of [s] before the first [c]. *)
Fixpoint str_before (c : ascii) (s : string) : string :=
  match s with
  | EmptyString => EmptyString
  | String a s' => if Ascii.eqb a c then EmptyString else String a (str_before c s')
  end.

(** [s.replace(old, new)] for a non-empty [old]; [skip] counts the
    characters of a match that are still to be passed over. *)
Fixpoint str_replace_from (old new : string) (skip : nat) (s : string) : string :=
  match s with
  | EmptyString => EmptyString
  | String a s' =>
      match skip with
      | S n => str_replace_from old new n s'
      | O =>
          if String.prefix old s
          then new ++ str_replace_from old new (Nat.pred (String.length old)) s'
          else String a (str_replace_from old new O s')
      end
  end.

Definition str_replace (old new s : string) : string :=
  str_replace_from old new O s.

Fixpoint str_chars (s : string) : list pyval :=
  match s with
  | EmptyString => []
  | String a s' => PStr (String a EmptyString) :: str_chars s'
  end.

Fixpoint str_join (sep : string) (l : list string) : string :=
  match l with
  | [] => EmptyString
  | [x] => x
  | x :: l' => x ++ sep ++ str_join sep l'
  end.

(** ** Numbers *)

(** [float(z)]: the nearest double, or [OverflowError]. *)
Definition float_of_int (z : Z) : result float :=
  match binary_normalize prec emax z 0 false with
  | S754_infinity _ => Raise OverflowError
  | f => Ok f
  end.

(** The double nearest to [n / d], with the sign [s], for [0 <= n], [0 < d]. *)
Definition nearest_ratio (s : bool) (n d : Z) : float :=
  match n with
  | Z0 => S754_zero s
  | _ =>
      let '(m, e, l) := SFdiv_core_binary prec emax n 0 d 0 in
      binary_round_aux prec emax s m e l
  end.

(** The double a decimal literal [m]e[-k] denotes, as [float(...)] reads it. *)
Definition decimal (m : Z) (k : nat) : float :=
  nearest_ratio (m <? 0) (Z.abs m) (10 ^ Z.of_nat k).

Definition float_of_bool (b : bool) : float :=
  if b then decimal 1 0 else S754_zero false.

(** The integer nearest to [a / b], ties going to the even one ([0 < b]). *)
Definition div_half_even (a b : Z) : Z :=
  let q := a / b in
  let r := a mod b in
  match 2 * r ?= b with
  | Lt => q
  | Gt => q + 1
  | Eq => if Z.even q then q else q + 1
  end.

(** [round(x, k)] on a float, for [0 <= k]: the value of [x] is rounded to
    [k] decimals (half to even, on its exact binary value) and the decimal
    read back as the nearest double.  Infinities and NaN round to
    themselves. *)
Definition float_round (x : float) (k : nat) : float :=
  match x with
  | S754_finite s m e =>
      let p := 10 ^ Z.of_nat k in
      let n := match e with
               | Zneg q => div_half_even (Zpos m * p) (2 ^ Zpos q)
               | _ => Zpos m * 2 ^ e * p
               end in
      nearest_ratio s n p
  | _ => x
  end.

(** [round(v, k)]: integers (and booleans, which are integers) are returned
    as integers; anything but a number has no [__round__]. *)
Definition py_round (v : pyval) (k : nat) : result pyval :=
  match v with
  | PInt z => Ok (PInt z)
  | PBool b => Ok (PInt (if b then 1 else 0))
  | PFloat f => Ok (PFloat (float_round f k))
  | _ => Raise TypeError
  end.

(** [v / d] for a float constant [d]. *)
Definition py_truediv_float (v : pyval) (d : float) : result pyval :=
  match v with
  | PInt z => f <- float_of_int z ;; Ok (PFloat (SFdiv prec emax f d))
  | PBool b => Ok (PFloat (SFdiv prec emax (float_of_bool b) d))
  | PFloat f => Ok (PFloat (SFdiv prec emax f d))
  | _ => Raise TypeError
  end.

(** [v > 0] *)
Definition py_gt_zero (v : pyval) : result bool :=
  match v with
  | PInt z => Ok (0 <? z)
  | PBool b => Ok b
  | PFloat f => Ok (SFltb (S754_zero false) f)
  | _ => Raise TypeError
  end.

(** Does the float [f] have exactly the integer value [z]? *)
Definition float_eq_int (f : float) (z : Z) : bool :=
  match f with
  | S754_zero _ => z =? 0
  | S754_finite s m (Zneg q) =>
      (Zpos m mod 2 ^ Zpos q =? 0) && (z =? cond_Zopp s (Zpos m / 2 ^ Zpos q))
  | S754_finite s m e => z =? cond_Zopp s (Zpos m * 2 ^ e)
  | _ => false
  end.

Definition Z_of_bool (b : bool) : Z := if b then 1 else 0.

(** ** Truth value, equality, membership, subscription *)

Definition truthy (v : pyval) : bool :=
  match v with
  | PNone => false
  | PBool b => b
  | PInt z => negb (z =? 0)
  | PFloat f => negb (SFeqb f (S754_zero false))
  | PStr s => negb (String.eqb s EmptyString)
  | PList l => match l with [] => false | _ => true end
  | PDict d => match d with [] => false | _ => true end
  end.

(** [a == b].  Numbers compare by value across [bool], [int] and [float];
    lists compare element by element and dicts key by key.  Values are
    compared by content only: the identity of objects, which Python consults
    first when it compares the elements of containers, is not modelled. *)
Fixpoint py_eq (a b : pyval) {struct a} : bool :=
  match a, b with
  | PNone, PNone => true
  | PBool x, PBool y => Bool.eqb x y
  | PBool x, PInt y => Z_of_bool x =? y
  | PBool x, PFloat y => float_eq_int y (Z_of_bool x)
  | PInt x, PBool y => x =? Z_of_bool y
  | PInt x, PInt y => x =? y
  | PInt x, PFloat y => float_eq_int y x
  | PFloat x, PBool y => float_eq_int x (Z_of_bool y)
  | PFloat x, PInt y => float_eq_int x y
  | PFloat x, PFloat y => SFeqb x y
  | PStr x, PStr y => String.eqb x y
  | PList x, PList y =>
      (fix all2 (x y : list pyval) {struct x} : bool :=
         match x, y with
         | [], [] => true
         | u :: x', v :: y' => py_eq u v && all2 x' y'
         | _, _ => false
         end) x y
  | PDict x, PDict y =>
      (List.length x =? List.length y)%nat &&
      (fix all (x : dict) {struct x} : bool :=
         match x with
         | [] => true
         | (k, u) :: x' =>
             match dict_get k y with
             | Some v => py_eq u v
             | None => false
             end && all x'
         end) x
  | _, _ => false
  end.

(** [key in v] for a string [key]. *)
Definition py_in (key : string) (v : pyval) : result bool :=
  match v with
  | PDict d => Ok (dict_has key d)
  | PList l => Ok (existsb (py_eq (PStr key)) l)
  | PStr s => Ok (str_contains key s)
  | _ => Raise TypeError
  end.

(** [v[key]] for a string [key]. *)
Definition py_getitem (v : pyval) (key : string) : result pyval :=
  match v with
  | PDict d =>
      match dict_get key d with
      | Some x => Ok x
      | None => Raise (KeyError key)
      end
  | _ => Raise TypeError
  end.

(** [v.get(key, default)] *)
Definition py_get (v : pyval) (key : string) (default : pyval) : result pyval :=
  match v with
  | PDict d =>
      match dict_get key d with
      | Some x => Ok x
      | None => Ok default
      end
  | _ => Raise AttributeError
  end.

(** [for x in v] *)
Definition py_iter (v : pyval) : result (list pyval) :=
  match v with
  | PList l => Ok l
  | PDict d => Ok (map (fun kv => PStr (fst kv)) d)
  | PStr s => Ok (str_chars s)
  | _ => Raise TypeError
  end.

(** [str(v)] for the numbers [_download_response] stringifies. *)
Definition str_of_int (z : Z) : string := NilZero.string_of_int (Z.to_int z).

(** CPython converts an integer to decimal text only up to a number of
    digits, the sign not counted ([sys.get_int_max_str_digits()], 4300
    unless the interpreter is configured otherwise); beyond it [str]
    raises [ValueError]. *)
Definition int_max_str_digits : nat := 4300.

Definition int_digits (z : Z) : nat := String.length (str_of_int (Z.abs z)).

Definition py_str_int (z : Z) : result string :=
  if (int_digits z <=? int_max_str_digits)%nat
  then Ok (str_of_int z)
  else Raise (LibraryError "ValueError").

(* ================================================================== *)
(** * The request layer *)
(* ================================================================== *)

Definition ITUNES_API_VERSION : string := "2".
Definition COUNTRY : string := "US".
Definition HOST_NAME : string := "http://itunes.apple.com/".

(** What the module takes from Python's library and from the network:
    [str] of a float, [urllib.parse.quote_plus] (of the UTF-8 encoding of a
    string), [urllib.request.urlopen(...).read()] and [json.loads].
    [urlopen] raises [HTTPError body] when the server answers with an error
    status, and any of them may raise a [LibraryError]. *)
Class Platform : Type := {
  float_str : float -> string;
  quote_plus : string -> string;
  urlopen : string -> result string;
  json_loads : string -> result pyval
}.

Definition backslash : string := "\".
Definition dquote : string := String (ascii_of_nat 34) EmptyString.

Definition clean_json (data : string) : string :=
  str_replace (backslash ++ "u") EmptyString
    (str_replace (backslash ++ dquote) EmptyString
       (str_replace (backslash ++ "'") dquote
          (str_replace (backslash ++ backslash) "//" data))).

(** Operations on the network leave a trace: the requests executed so far. *)
Record _Request : Type := { params : dict; method : string }.

Definition io (A : Type) : Type := (list _Request * result A)%type.

Definition lift {A} (c : result A) : io A := ([], c).

Definition bind_io {A B} (c : io A) (k : A -> io B) : io B :=
  match c with
  | (t, Ok a) => let '(t', r) := k a in ((t ++ t')%list, r)
  | (t, Raise e) => (t, Raise e)
  end.

Notation "x <~ c ;; k" := (bind_io c (fun x => k))
  (at level 61, c at next level, right associativity).

Definition trace {A} (c : io A) : list _Request := fst c.
Definition outcome {A} (c : io A) : result A := snd c.

Section Request.
Context {P : Platform}.

(** The text sent for one parameter value: numbers are stringified,
    [&amp;] becomes [&], the result is URL-escaped.  A value that is neither
    a number nor a string has no [replace]; an integer too long for [str]
    is not stringified. *)
Definition encode_value (value : pyval) : result string :=
  match value with
  | PInt z =>
      text <- py_str_int z ;;
      Ok (quote_plus (str_replace "&amp;" "&" text))
  | PBool b => Ok (quote_plus (str_replace "&amp;" "&" (if b then "True" else "False")))
  | PFloat f => Ok (quote_plus (str_replace "&amp;" "&" (float_str f)))
  | PStr s => Ok (quote_plus (str_replace "&amp;" "&" s))
  | _ => Raise AttributeError
  end.

(** The list [data] of [_download_response], before it is joined. *)
Fixpoint query_data (params : dict) : result (list (string * string)) :=
  match params with
  | [] => Ok []
  | (name, value) :: rest =>
      v <- encode_value value ;;
      data <- query_data rest ;;
      Ok ((name, v) :: data)
  end.

Definition request_url (self : _Request) : result string :=
  data <- query_data (params self) ;;
  Ok (HOST_NAME ++ method self ++ "?" ++
      str_join "&" (map (fun nv => fst nv ++ "=" ++ snd nv) data)).

Definition _download_response (self : _Request) : result string :=
  url <- request_url self ;;
  urlopen url.

Definition _get_error (text : string) : exn :=
  ServiceException (PStr "Error") (PStr text).

Definition execute (self : _Request) : io pyval :=
  ([self],
   match _download_response self with
   | Ok response => json_loads (clean_json response)
   | Raise (HTTPError body) => Raise (_get_error body)
   | Raise e => Raise e
   end).
End Request.

(* ================================================================== *)
(** * Queries *)
(* ================================================================== *)

Record BaseObject : Type := { _method : string; _search_terms : dict }.

Definition BaseObject_init (method : string) : BaseObject :=
  {| _method := method; _search_terms := [] |}.

Definition _get_params (self : BaseObject) : dict :=
  fold_left
    (fun params key =>
       match dict_get key (_search_terms self) with
       | Some v => dict_set key v params
       | None => params
       end)
    (dict_keys (_search_terms self)) [].

Definition _request {P : Platform} (self : BaseObject) : io pyval :=
  execute {| params := _get_params self; method := _method self |}.

(** [Search(query, country, media, entity, attribute, offset, limit, order,
    lang, version, explicit)]; the only step that can fail is [offset > 0].
    The constructor starts from a fresh dict of search terms. *)
Definition Search (query country media entity attribute offset limit order
                   lang version explicit : pyval) : result BaseObject :=
  let self := BaseObject_init "search" in
  let t := dict_set "term" query [] in
  let t := dict_set "country" country t in
  let t := dict_set "media" media t in
  let t := if truthy entity then dict_set "entity" entity t else t in
  let t := if truthy attribute then dict_set "attribute" attribute t else t in
  let t := dict_set "limit" limit t in
  positive <- py_gt_zero offset ;;
  let t := if positive : bool then dict_set "offset" offset t else t in
  let t := match order with PNone => t | _ => dict_set "order" order t end in
  let t := dict_set "lang" lang t in
  let t := dict_set "version" version t in
  let t := dict_set "explicit" explicit t in
  Ok {| _method := _method self; _search_terms := t |}.

(** [Lookup(id, entity, country, limit)]; the object also keeps [id]. *)
Record LookupObject : Type := { Lookup_base :> BaseObject; Lookup_id : pyval }.

Definition Lookup (id entity country limit : pyval) : LookupObject :=
  let self := BaseObject_init "lookup" in
  let t := dict_set "id" id (_search_terms self) in
  let t := if truthy entity then dict_set "entity" entity t else t in
  let t := if truthy country then dict_set "country" country t else t in
  let t := dict_set "limit" limit t in
  {| Lookup_base := {| _method := _method self; _search_terms := t |};
     Lookup_id := id |}.

(* ================================================================== *)
(** * Result classes *)
(* ================================================================== *)

(** An attribute of an object: [None] until it has been assigned. *)
Definition attr (A : Type) : Type := option A.

Definition is_not_None (v : pyval) : bool :=
  match v with PNone => false | _ => true end.

Module Item.

Record t : Type := {
  id : pyval;
  name : pyval;
  url : pyval;
  json : attr pyval;
  type : attr pyval;
  genre : attr pyval;
  release_date : attr pyval;
  country_store : attr pyval;
  artwork : attr dict
}.

Definition __init__ (id : pyval) : t :=
  {| id := id; name := PNone; url := PNone; json := None; type := None;
     genre := None; release_date := None; country_store := None;
     artwork := None |}.

Definition with_name (self : t) (v : pyval) : t :=
  {| id := id self; name := v; url := url self; json := json self;
     type := type self; genre := genre self;
     release_date := release_date self;
     country_store := country_store self; artwork := artwork self |}.

Definition with_url (self : t) (v : pyval) : t :=
  {| id := id self; name := name self; url := v; json := json self;
     type := type self; genre := genre self;
     release_date := release_date self;
     country_store := country_store self; artwork := artwork self |}.

(** Each [_set_x] returns the value it assigns to the attribute [x]. *)
Definition _set_genre (json : pyval) : result pyval :=
  py_get json "primaryGenreName" PNone.

Definition _set_release (json : pyval) : result pyval :=
  has <- py_in "releaseDate" json ;;
  if has : bool then
    v <- py_getitem json "releaseDate" ;;
    if truthy v then
      match v with
      | PStr s => Ok (PStr (str_before "T" s))
      | _ => Raise AttributeError
      end
    else Ok PNone
  else Ok PNone.

Definition _set_country (json : pyval) : result pyval :=
  py_get json "country" PNone.

Definition artwork_step (json : pyval) (field size : string) (artwork : dict)
  : result dict :=
  has <- py_in field json ;;
  if has : bool then
    v <- py_getitem json field ;; Ok (dict_set size v artwork)
  else Ok artwork.

Definition _set_artwork (json : pyval) : result dict :=
  a <- artwork_step json "artworkUrl30" "30" [] ;;
  a <- artwork_step json "artworkUrl60" "60" a ;;
  a <- artwork_step json "artworkUrl100" "100" a ;;
  a <- artwork_step json "artworkUrl512" "512" a ;;
  artwork_step json "artworkUrl1100" "1100" a.

Definition _set_url (json : pyval) : result pyval :=
  has <- py_in "trackViewUrl" json ;;
  if has : bool then py_getitem json "trackViewUrl" else
  has <- py_in "collectionViewUrl" json ;;
  if has : bool then py_getitem json "collectionViewUrl" else
  has <- py_in "artistViewUrl" json ;;
  if has : bool then py_getitem json "artistViewUrl" else
  Ok PNone.

Definition _set (self : t) (json : pyval) : result t :=
  has_kind <- py_in "kind" json ;;
  type <- (if has_kind : bool then py_getitem json "kind"
           else py_getitem json "wrapperType") ;;
  genre <- _set_genre json ;;
  release_date <- _set_release json ;;
  country_store <- _set_country json ;;
  artwork <- _set_artwork json ;;
  url <- _set_url json ;;
  Ok {| id := id self; name := name self; url := url; json := Some json;
        type := Some type; genre := Some genre;
        release_date := Some release_date;
        country_store := Some country_store; artwork := Some artwork |}.

(** [other] is [None] for Python's [None]. *)
Definition __eq__ (self : t) (other : option t) : bool :=
  match other with
  | None => false
  | Some other => py_eq (id self) (id other)
  end.

Definition __ne__ (self : t) (other : option t) : bool :=
  match other with
  | None => false
  | Some other => negb (py_eq (id self) (id other))
  end.

End Item.

Module Artist.

Record t : Type := { base : Item.t; amg_id : attr pyval }.

Definition __init__ (id : pyval) : t :=
  {| base := Item.__init__ id; amg_id := None |}.

Definition _set (self : t) (json : pyval) : result t :=
  b <- Item._set (base self) json ;;
  name <- py_getitem json "artistName" ;;
  amg_id <- py_get json "amgArtistId" PNone ;;
  link <- py_get json "artistLinkUrl" PNone ;;
  url <- py_get json "artistViewUrl" link ;;
  Ok {| base := Item.with_url (Item.with_name b name) url;
        amg_id := Some amg_id |}.

End Artist.

(** [self.artist = None; if json.get('artistId'): ...], shared verbatim by
    [Album] and [Track]: the value left in [self.artist]. *)
Definition set_artist (json : pyval) : result (option Artist.t) :=
  v <- py_get json "artistId" PNone ;;
  if truthy v then
    id <- py_getitem json "artistId" ;;
    a <- Artist._set (Artist.__init__ id) json ;;
    Ok (Some a)
  else Ok None.

Module Album.

Record t : Type := {
  base : Item.t;
  amg_id : attr pyval;
  price : attr pyval;
  price_currency : attr pyval;
  track_count : attr pyval;
  copyright : attr pyval;
  artist : attr (option Artist.t)
}.

Definition __init__ (id : pyval) : t :=
  {| base := Item.__init__ id; amg_id := None; price := None;
     price_currency := None; track_count := None; copyright := None;
     artist := None |}.

Definition _set_artist (json : pyval) : result (option Artist.t) :=
  set_artist json.

Definition _set (self : t) (json : pyval) : result t :=
  b <- Item._set (base self) json ;;
  name <- py_getitem json "collectionName" ;;
  url <- py_get json "collectionViewUrl" PNone ;;
  amg_id <- py_get json "amgAlbumId" PNone ;;
  p <- py_get json "collectionPrice" (PInt 0) ;;
  price <- py_round (if truthy p then p else PInt 0) 4 ;;
  price_currency <- py_getitem json "currency" ;;
  track_count <- py_getitem json "trackCount" ;;
  copyright <- py_get json "copyright" PNone ;;
  artist <- _set_artist json ;;
  Ok {| base := Item.with_url (Item.with_name b name) url;
        amg_id := Some amg_id; price := Some price;
        price_currency := Some price_currency;
        track_count := Some track_count; copyright := Some copyright;
        artist := Some artist |}.

End Album.

Module Track.

Record t : Type := {
  base : Item.t;
  preview_url : attr pyval;
  price : attr pyval;
  number : attr pyval;
  duration : attr pyval;
  artist : attr (option Artist.t);
  album : attr (option Album.t)
}.

Definition __init__ (id : pyval) : t :=
  {| base := Item.__init__ id; preview_url := None; price := None;
     number := None; duration := None; artist := None; album := None |}.

Definition _set_artist (json : pyval) : result (option Artist.t) :=
  set_artist json.

(** The [album] attribute after [_set_album], given what it held before:
    it is assigned only under [if 'collectionId' in json]. *)
Definition _set_album (before : attr (option Album.t)) (json : pyval)
  : result (attr (option Album.t)) :=
  has <- py_in "collectionId" json ;;
  if has : bool then
    id <- py_getitem json "collectionId" ;;
    a <- Album._set (Album.__init__ id) json ;;
    Ok (Some (Some a))
  else Ok before.

Definition _set_price (json : pyval) : result pyval :=
  has <- py_in "trackPrice" json ;;
  if has : bool then
    v <- py_getitem json "trackPrice" ;;
    if is_not_None v then py_round v 4 else Ok PNone
  else Ok PNone.

Definition thousand : float := decimal 1000 0.

Definition _set_duration (json : pyval) : result pyval :=
  has <- py_in "trackTimeMillis" json ;;
  if has : bool then
    v <- py_getitem json "trackTimeMillis" ;;
    if is_not_None v then
      ms <- py_get json "trackTimeMillis" (PFloat (S754_zero false)) ;;
      s <- py_truediv_float ms thousand ;;
      py_round s 2
    else Ok PNone
  else Ok PNone.

Definition _set (self : t) (json : pyval) : result t :=
  b <- Item._set (base self) json ;;
  name <- py_getitem json "trackName" ;;
  url <- py_get json "trackViewUrl" PNone ;;
  preview_url <- py_get json "previewUrl" PNone ;;
  price <- _set_price json ;;
  number <- py_get json "trackNumber" PNone ;;
  duration <- _set_duration json ;;
  artist <- except_KeyError (_set_artist json) (Ok None) ;;
  album <- except_KeyError (_set_album (album self) json) (Ok (Some None)) ;;
  Ok {| base := Item.with_url (Item.with_name b name) url;
        preview_url := Some preview_url; price := Some price;
        number := Some number; duration := Some duration;
        artist := Some artist; album := album |}.

End Track.

(** An object of the hierarchy, tagged with its class. *)
Inductive obj : Type :=
| AnItem (i : Item.t)
| AnArtist (a : Artist.t)
| AnAlbum (a : Album.t)
| ATrack (t : Track.t).

(** The attributes every object inherits from [Item]. *)
Definition as_item (o : obj) : Item.t :=
  match o with
  | AnItem i => i
  | AnArtist a => Artist.base a
  | AnAlbum a => Album.base a
  | ATrack t => Track.base t
  end.

(* ================================================================== *)
(** * The result dispatcher *)
(* ================================================================== *)

(** The variant tag of a record: [wrapperType], else [kind], else [None]. *)
Definition entry_type (entry : pyval) : result pyval :=
  has <- py_in "wrapperType" entry ;;
  if has : bool then py_getitem entry "wrapperType" else
  has <- py_in "kind" entry ;;
  if has : bool then py_getitem entry "kind" else
  Ok PNone.

(** The binding of the local [id] after the fallback branch's
    [if 'collectionId' ... elif 'artistId' ...]; [None] is an unbound local.
    Without either key the binding is the one the previous record left. *)
Definition fallback_id (entry : pyval) (id : option pyval)
  : result (option pyval) :=
  has <- py_in "collectionId" entry ;;
  if has : bool then v <- py_getitem entry "collectionId" ;; Ok (Some v) else
  has <- py_in "artistId" entry ;;
  if has : bool then v <- py_getitem entry "artistId" ;; Ok (Some v) else
  Ok id.

(** One turn of the loop of [get]: the object built from the record [entry] and the
    binding of the local [id] afterwards. *)
Definition get_entry (entry : pyval) (id : option pyval)
  : result (obj * option pyval) :=
  type <- entry_type entry ;;
  if py_eq type (PStr "artist") then
    id <- py_getitem entry "artistId" ;;
    item <- Artist._set (Artist.__init__ id) entry ;;
    Ok (AnArtist item, Some id)
  else if py_eq type (PStr "collection") then
    id <- py_getitem entry "collectionId" ;;
    item <- Album._set (Album.__init__ id) entry ;;
    Ok (AnAlbum item, Some id)
  else if py_eq type (PStr "track") then
    id <- py_getitem entry "trackId" ;;
    item <- Track._set (Track.__init__ id) entry ;;
    Ok (ATrack item, Some id)
  else
    id <- fallback_id entry id ;;
    match id with
    | None => Raise (UnboundLocalError "id")
    | Some v =>
        item <- Item._set (Item.__init__ v) entry ;;
        Ok (AnItem item, id)
    end.

(** The loop of [get]: [l] is the list built so far. *)
Fixpoint get_loop (results : list pyval) (id : option pyval) (l : list obj)
  : result (list obj) :=
  match results with
  | [] => Ok l
  | entry :: rest =>
      r <- get_entry entry id ;;
      get_loop rest (snd r) (l ++ [fst r])
  end.

(** What [get] does with the decoded answer.  The attributes
    [_json_results] and [_num_results] it caches on the query are not
    modelled; reading [resultCount] still fails when the field is absent. *)
Definition get_results (json_results : pyval) : result (list obj) :=
  err <- py_in "errorMessage" json_results ;;
  if err : bool then
    message <- py_getitem json_results "errorMessage" ;;
    Raise (ServiceException (PStr "Error") message)
  else
    _ <- py_getitem json_results "resultCount" ;;
    results <- py_getitem json_results "results" ;;
    entries <- py_iter results ;;
    get_loop entries None [].

(** What a navigation accessor returns: the object itself, another object,
    or a list. *)
Inductive answer : Type :=
| Self
| Object (o : obj)
| Objects (l : list obj).

Definition Nothing_found : exn :=
  ServiceException (PStr "Error") (PStr "Nothing found!").

Definition self_type (self : Item.t) : result pyval :=
  match Item.type self with
  | Some v => Ok v
  | None => Raise AttributeError
  end.

Section Service.
Context {P : Platform}.

Definition get (self : BaseObject) : io (list obj) :=
  json_results <~ _request self ;;
  lift (get_results json_results).

(** ** Navigation accessors of [Item] *)

Definition get_tracks (self : Item.t) (limit : pyval) : io answer :=
  type <~ lift (self_type self) ;;
  if py_eq type (PStr "song") then lift (Ok Self) else
  items <~ get (Lookup (Item.id self) (PStr "song") PNone limit) ;;
  match items with
  | [] => lift (Raise Nothing_found)
  | _ :: rest => lift (Ok (Objects rest))
  end.

Definition get_songs (self : Item.t) (limit : pyval) : io answer :=
  get_tracks self limit.

Definition get_music_videos (self : Item.t) (limit : pyval) : io answer :=
  type <~ lift (self_type self) ;;
  if py_eq type (PStr "musicVideo") then lift (Ok Self) else
  items <~ get (Lookup (Item.id self) (PStr "musicVideo") PNone limit) ;;
  match items with
  | [] => lift (Raise Nothing_found)
  | _ :: rest => lift (Ok (Objects rest))
  end.

Definition get_album (self : Item.t) : io answer :=
  type <~ lift (self_type self) ;;
  if py_eq type (PStr "collection") then lift (Ok Self) else
  items <~ get (Lookup (Item.id self) (PStr "album") PNone (PInt 1)) ;;
  match items with
  | [] | [_] => lift (Raise Nothing_found)
  | _ :: second :: _ => lift (Ok (Object second))
  end.

Definition get_albums (self : Item.t) (limit : pyval) : io answer :=
  type <~ lift (self_type self) ;;
  if py_eq type (PStr "collection") then lift (Ok Self) else
  if py_eq type (PStr "song") then get_album self else
  all <~ get (Lookup (Item.id self) (PStr "album") PNone limit) ;;
  let items := tl all in
  match items with
  | [] => lift (Raise Nothing_found)
  | _ => lift (Ok (Objects (tl items)))
  end.

(** ** Convenience functions *)

Definition search_with (query media entity limit offset order store : pyval)
  : io (list obj) :=
  s <~ lift (Search query store media entity PNone offset limit order
               (PStr "en_us") (PStr ITUNES_API_VERSION) (PStr "Yes")) ;;
  get s.

Definition search_track (query limit offset order store : pyval) :=
  search_with query (PStr "music") (PStr "song") limit offset order store.

Definition search_song (query limit offset order store : pyval) :=
  search_track query limit offset order store.

Definition search_album (query limit offset order store : pyval) :=
  search_with query (PStr "music") (PStr "album") limit offset order store.

Definition search_artist (query limit offset order store : pyval) :=
  search_with query (PStr "music") (PStr "musicArtist") limit offset order store.

Definition search (query media limit offset order store : pyval) :=
  search_with query media PNone limit offset order store.

Definition lookup (id entity country limit : pyval) : io obj :=
  items <~ get (Lookup id entity country limit) ;;
  match items with
  | [] => lift (Raise Nothing_found)
  | first :: _ => lift (Ok first)
  end.
End Service.

(* ================================================================== *)
(** * Vocabulary of the properties *)
(* ================================================================== *)

(** The variant tag of a JSON object, read off its fields. *)
Definition tag (d : dict) : pyval :=
  match dict_get "wrapperType" d with
  | Some w => w
  | None =>
      match dict_get "kind" d with
      | Some k => k
      | None => PNone
      end
  end.

(** [collectionId] if present, else [artistId] if present. *)
Definition fallback_key (d : dict) : option pyval :=
  match dict_get "collectionId" d with
  | Some c => Some c
  | None => dict_get "artistId" d
  end.

Definition known_tag (d : dict) : Prop :=
  tag d = PStr "artist" \/ tag d = PStr "collection" \/ tag d = PStr "track".

(** The identifier field of a record, by variant. *)
Definition entry_id (d : dict) (v : pyval) : Prop :=
  (tag d = PStr "artist" /\ dict_get "artistId" d = Some v) \/
  (tag d = PStr "collection" /\ dict_get "collectionId" d = Some v) \/
  (tag d = PStr "track" /\ dict_get "trackId" d = Some v) \/
  (~ known_tag d /\ fallback_key d = Some v).

(** The record names an identifier of its own: its tag is one of the three
    known ones, or it has one of the two fallback keys. *)
Definition carries_id (d : dict) : Prop :=
  known_tag d \/ fallback_key d <> None.

(** The object a record is turned into: the class follows the tag, the
    identifier is the variant's identifier field, and the object is the
    freshly constructed one populated from the whole record. *)
Inductive variant_of (d : dict) : obj -> Prop :=
| artist_variant id a :
    tag d = PStr "artist" ->
    dict_get "artistId" d = Some id ->
    Artist._set (Artist.__init__ id) (PDict d) = Ok a ->
    variant_of d (AnArtist a)
| album_variant id a :
    tag d = PStr "collection" ->
    dict_get "collectionId" d = Some id ->
    Album._set (Album.__init__ id) (PDict d) = Ok a ->
    variant_of d (AnAlbum a)
| track_variant id t :
    tag d = PStr "track" ->
    dict_get "trackId" d = Some id ->
    Track._set (Track.__init__ id) (PDict d) = Ok t ->
    variant_of d (ATrack t)
| item_variant id i :
    ~ known_tag d ->
    fallback_key d = Some id ->
    Item._set (Item.__init__ id) (PDict d) = Ok i ->
    variant_of d (AnItem i).

(** A well-formed success envelope with the given [results] array. *)
Definition envelope_of (env : dict) (results : list pyval) : Prop :=
  dict_get "errorMessage" env = None /\
  dict_get "resultCount" env <> None /\
  dict_get "results" env = Some (PList results).

(** [n] is an integer nearest to the fraction [a / b]. *)
Definition nearest_integer (n a b : Z) : Prop :=
  Z.abs (2 * (n * b - a)) <= b.

(** Offsets are numbers; [positive_number] singles out those above zero. *)
Definition number (v : pyval) : Prop :=
  match v with
  | PBool _ | PInt _ | PFloat _ => True
  | _ => False
  end.

Definition positive_number (v : pyval) : Prop :=
  match v with
  | PBool b => b = true
  | PInt z => 0 < z
  | PFloat f => SFltb (S754_zero false) f = true
  | _ => False
  end.

(** The request a [Lookup] of [id] with an entity filter sends. *)
Definition lookup_request (id : pyval) (entity : string) (limit : pyval)
  : _Request :=
  {| params := [("id", id); ("entity", PStr entity); ("limit", limit)];
     method := "lookup" |}.

(** Identifiers as the service sends them: integers or strings. *)
Definition plain_id (v : pyval) : Prop :=
  (exists z, v = PInt z) \/ (exists s, v = PStr s).

(** ** Sample data *)

Module Sample.

Definition beatles : pyval :=
  PDict [("wrapperType", PStr "artist"); ("artistId", PInt 136975);
         ("artistName", PStr "The Beatles")].

Definition abbey_road (price : pyval) : pyval :=
  PDict [("wrapperType", PStr "collection"); ("collectionId", PInt 401186200);
         ("collectionName", PStr "Abbey Road"); ("collectionPrice", price);
         ("currency", PStr "USD"); ("trackCount", PInt 17)].

Definition something : dict :=
  [("wrapperType", PStr "track"); ("kind", PStr "song");
   ("trackId", PInt 401186254); ("trackName", PStr "Something");
   ("trackTimeMillis", PInt 182293);
   ("releaseDate", PStr "1969-09-26T07:00:00Z")].

Definition envelope (results : list pyval) : pyval :=
  PDict [("resultCount", PInt (Z.of_nat (List.length results)));
         ("results", PList results)].

(** Three records of different variants. *)
Definition mixed : list dict :=
  [[("wrapperType", PStr "artist"); ("artistId", PInt 136975);
    ("artistName", PStr "The Beatles")];
   something;
   [("kind", PStr "podcast"); ("collectionId", PInt 7)]].

(** A record with an identifier but neither [wrapperType] nor [kind]. *)
Definition untagged : dict := [("collectionId", PInt 5)].

(** A track record naming a collection without the fields of an album. *)
Definition orphan_track : dict :=
  (something ++ [("collectionId", PInt 401186200)])%list.

(** A service that answers every request with the same decoded value. *)
Definition answering (v : pyval) : Platform :=
  {| float_str := fun _ => "0.0";
     quote_plus := fun s => s;
     urlopen := fun url => Ok url;
     json_loads := fun _ => Ok v |}.

End Sample.

(* ================================================================== *)
(** * Further methods *)
(* ================================================================== *)

Definition with_id (self : Item.t) (v : pyval) : Item.t :=
  {| Item.id := v; Item.name := Item.name self; Item.url := Item.url self;
     Item.json := Item.json self; Item.type := Item.type self;
     Item.genre := Item.genre self;
     Item.release_date := Item.release_date self;
     Item.country_store := Item.country_store self;
     Item.artwork := Item.artwork self |}.

Definition self_json (self : Item.t) : result pyval :=
  match Item.json self with
  | Some v => Ok v
  | None => Raise AttributeError
  end.

Definition _set_name (self : Item.t) (name : pyval) : Item.t :=
  Item.with_name self name.

(** [Item.__repr__]: the object afterwards, and the value returned. *)
Definition __repr__ (self : Item.t) : result (Item.t * pyval) :=
  if truthy (Item.name self) then Ok (self, Item.name self) else
  json <- self_json self ;;
  has <- py_in "collectionName" json ;;
  if has : bool then
    v <- py_getitem json "collectionName" ;;
    Ok (_set_name self v, v)
  else
    has <- py_in "artistName" json ;;
    if has : bool then
      v <- py_getitem json "artistName" ;;
      Ok (_set_name self v, v)
    else Ok (self, Item.name self).

Definition get_name (self : Item.t) : result (Item.t * pyval) :=
  __repr__ self.

(** [Item.get_id]: the object afterwards, and the value returned. *)
Definition get_id (self : Item.t) : result (Item.t * pyval) :=
  if truthy (Item.id self) then Ok (self, Item.id self) else
  json <- self_json self ;;
  has <- py_in "collectionId" json ;;
  if has : bool then
    v <- py_getitem json "collectionId" ;;
    Ok (with_id self v, v)
  else
    has <- py_in "artistId" json ;;
    if has : bool then
      v <- py_getitem json "artistId" ;;
      Ok (with_id self v, v)
    else Ok (self, Item.id self).

(** ** Vocabulary of the further properties *)

Definition backslash_char : ascii := ascii_of_nat 92.

(** No backslash of [s] is followed by a character of the set [F]. *)
Fixpoint no_escape (F : ascii -> bool) (s : string) : bool :=
  match s with
  | EmptyString => true
  | String a s' =>
      negb (Ascii.eqb a backslash_char &&
            match s' with
            | String b _ => F b
            | EmptyString => false
            end) && no_escape F s'
  end.

(** The two-character string [\c]. *)
Definition escape (c : ascii) : string :=
  String backslash_char (String c EmptyString).

Fixpoint no_backslash (s : string) : bool :=
  match s with
  | EmptyString => true
  | String a s' => negb (Ascii.eqb a backslash_char) && no_backslash s'
  end.

(** The four sequences [clean_json] rewrites. *)
Definition cleaned (s : string) : Prop :=
  str_contains (backslash ++ backslash) s = false /\
  str_contains (backslash ++ "'") s = false /\
  str_contains (backslash ++ dquote) s = false /\
  str_contains (backslash ++ "u") s = false.





(** The type attribute [Item._set] gives to an object built from [d]. *)
Definition kind_first (d : dict) : option pyval :=
  match dict_get "kind" d with
  | Some k => Some k
  | None => dict_get "wrapperType" d
  end.

(** The value of a field, [None] when the record lacks it. *)
Definition field_or_None (k : string) (d : dict) : pyval :=
  match dict_get k d with
  | Some v => v
  | None => PNone
  end.

(** The first of the three store links a record has. *)
Definition first_view_url (d : dict) : pyval :=
  match dict_get "trackViewUrl" d with
  | Some v => v
  | None =>
      match dict_get "collectionViewUrl" d with
      | Some v => v
      | None => field_or_None "artistViewUrl" d
      end
  end.

Definition artwork_sizes : list string := ["30"; "60"; "100"; "512"; "1100"].

Definition add_size (d : dict) (size : string) (artwork : dict) : dict :=
  match dict_get ("artworkUrl" ++ size) d with
  | Some v => dict_set size v artwork
  | None => artwork
  end.

(** The artwork mapping of a record, size by size. *)
Definition artwork_of (d : dict) : dict :=
  fold_left (fun a size => add_size d size a) artwork_sizes [].

(** [s] splits into [date] and a rest that is empty or starts with [T]. *)
Definition date_part (date s : string) : Prop :=
  str_contains "T" date = false /\
  (s = date \/ exists rest, s = (date ++ String "T" rest)%string).

(** The request a search sends; the optional parameters are given as
    lists that are empty when the parameter is left out. *)
Definition search_request (query store media : pyval)
  (entity : list (string * pyval)) (limit : pyval)
  (offset order : list (string * pyval)) : _Request :=
  {| params := ([("term", query); ("country", store); ("media", media)]
                ++ entity ++ [("limit", limit)] ++ offset ++ order
                ++ [("lang", PStr "en_us"); ("version", PStr "2");
                    ("explicit", PStr "Yes")])%list;
     method := "search" |}.

Definition when (b : bool) (k : string) (v : pyval) : list (string * pyval) :=
  if b then [(k, v)] else [].

Definition positive_offset (offset : pyval) : bool :=
  match py_gt_zero offset with
  | Ok b => b
  | Raise _ => false
  end.

(** Two objects show the same record: they agree on every attribute
    [Item._set] reads off the JSON object. *)
Definition same_record (x y : Item.t) : Prop :=
  Item.json x = Item.json y /\
  Item.type x = Item.type y /\
  Item.genre x = Item.genre y /\
  Item.release_date x = Item.release_date y /\
  Item.country_store x = Item.country_store y /\
  Item.artwork x = Item.artwork y.

(** What [get] guarantees about an object built from the entry [e]. *)
Definition built_from (e : pyval) (o : obj) : Prop :=
  exists d,
    e = PDict d /\
    Item.json (as_item o) = Some (PDict d) /\
    Item.type (as_item o) = kind_first d /\
    kind_first d <> None.

Module Fixture.

(** A service whose server answers every request with an error status. *)
Definition refusing (body : string) : Platform :=
  {| float_str := fun _ => "0.0";
     quote_plus := fun s => s;
     urlopen := fun _ => Raise (HTTPError body);
     json_loads := fun _ => Ok PNone |}.

Definition album_record : dict :=
  [("wrapperType", PStr "collection"); ("collectionId", PInt 401186200);
   ("collectionName", PStr "Abbey Road"); ("collectionPrice", PInt 10);
   ("currency", PStr "USD"); ("trackCount", PInt 17);
   ("artistId", PInt 136975); ("artistName", PStr "The Beatles");
   ("releaseDate", PStr "1969-09-26T07:00:00Z");
   ("artworkUrl60", PStr "http://a/60.jpg");
   ("artworkUrl100", PStr "http://a/100.jpg");
   ("collectionViewUrl", PStr "http://a/album");
   ("artistViewUrl", PStr "http://a/artist")].

Definition song_record : dict :=
  [("wrapperType", PStr "track"); ("kind", PStr "song");
   ("trackId", PInt 401186254); ("trackName", PStr "Something");
   ("collectionId", PInt 401186200);
   ("collectionName", PStr "Abbey Road");
   ("currency", PStr "USD"); ("trackCount", PInt 17);
   ("trackViewUrl", PStr "http://a/track");
   ("collectionViewUrl", PStr "http://a/album")].

Definition podcast_record : dict :=
  [("kind", PStr "podcast"); ("collectionId", PInt 7);
   ("collectionName", PStr "A Show"); ("artistName", PStr "A Host")].

(** A track record that has a [wrapperType] but no [kind]. *)
Definition kindless_track : dict :=
  [("wrapperType", PStr "track"); ("trackId", PInt 9);
   ("trackName", PStr "Untitled")].

End Fixture.

(* ================================================================== *)
(** * Basic facts *)
(* ================================================================== *)

Lemma bind_Ok {A B} (c : result A) (k : A -> result B) (b : B) :
  bind c k = Ok b <-> exists a, c = Ok a /\ k a = Ok b.
Proof.
  destruct c as [a|e]; simpl; split.
  - intros H. exists a. now split.
  - intros (a' & Ha & Hk). now injection Ha as ->.
  - discriminate.
  - intros (a' & Ha & _). discriminate.
Qed.

(** Splits a hypothesis [x <- c ;; k = Ok b] into its two steps. *)
Ltac bind_inv H :=
  let a := fresh "v" in
  let Ha := fresh "E" in
  apply bind_Ok in H; destruct H as (a & Ha & H).

Lemma py_eq_PStr (v : pyval) (s : string) :
  py_eq v (PStr s) = true <-> v = PStr s.
Proof.
  destruct v; simpl; split; intros H; try discriminate.
  - apply String.eqb_eq in H. now subst.
  - injection H as ->. apply String.eqb_refl.
Qed.

Lemma py_eq_PStr_false (v : pyval) (s : string) :
  py_eq v (PStr s) = false <-> v <> PStr s.
Proof.
  rewrite <- py_eq_PStr. destruct (py_eq v (PStr s)); split; congruence.
Qed.

Lemma py_eq_plain (u v : pyval) :
  plain_id u -> plain_id v -> (py_eq u v = true <-> u = v).
Proof.
  intros [[x ->]|[x ->]] [[y ->]|[y ->]]; simpl; split; intros H;
    try discriminate.
  - apply Z.eqb_eq in H. now subst.
  - injection H as ->. apply Z.eqb_refl.
  - apply String.eqb_eq in H. now subst.
  - injection H as ->. apply String.eqb_refl.
Qed.

Lemma dict_get_set (k k' : string) (v : pyval) (d : dict) :
  dict_get k (dict_set k' v d) =
  if String.eqb k k' then Some v else dict_get k d.
Proof.
  induction d as [|[k0 v0] d IH]; simpl.
  - reflexivity.
  - destruct (String.eqb k' k0) eqn:E0; simpl.
    + apply String.eqb_eq in E0. subst k0.
      destruct (String.eqb k k'); reflexivity.
    + rewrite IH. destruct (String.eqb k k0) eqn:E1; [|reflexivity].
      apply String.eqb_eq in E1. subst k0.
      destruct (String.eqb k k') eqn:E2; [|reflexivity].
      apply String.eqb_eq in E2. subst k'.
      rewrite String.eqb_refl in E0. discriminate.
Qed.

Lemma dict_get_None_keys (k : string) (d : dict) :
  dict_get k d = None <-> ~ In k (dict_keys d).
Proof.
  induction d as [|[k0 v0] d IH]; simpl.
  - tauto.
  - destruct (String.eqb k k0) eqn:E.
    + apply String.eqb_eq in E. subst. split; [discriminate | tauto].
    + apply String.eqb_neq in E. rewrite IH. split.
      * intros H [H'|H']; [congruence | tauto].
      * tauto.
Qed.

Lemma dict_get_not_key (k : string) (d : dict) :
  existsb (String.eqb k) (dict_keys d) = false -> dict_get k d = None.
Proof.
  induction d as [|[k0 v0] d IH]; simpl; [reflexivity|].
  destruct (String.eqb k k0); simpl; [discriminate | exact IH].
Qed.

(** [_get_params] copies the search terms: every key looks up the same. *)
Lemma get_params_fold (terms : dict) (keys : list string) (acc : dict) (k : string) :
  dict_get k
    (fold_left
       (fun params key =>
          match dict_get key terms with
          | Some v => dict_set key v params
          | None => params
          end) keys acc) =
  match (if existsb (String.eqb k) keys then dict_get k terms else None) with
  | Some v => Some v
  | None => dict_get k acc
  end.
Proof.
  revert acc. induction keys as [|key keys IH]; intros acc; simpl.
  - reflexivity.
  - rewrite IH. destruct (String.eqb k key) eqn:Ek; simpl.
    + apply String.eqb_eq in Ek. subst key.
      destruct (dict_get k terms) as [v|] eqn:Et.
      * destruct (existsb (String.eqb k) keys); [reflexivity|].
        now rewrite dict_get_set, String.eqb_refl.
      * now destruct (existsb (String.eqb k) keys).
    + assert (dict_get k
                match dict_get key terms with
                | Some v => dict_set key v acc
                | None => acc
                end = dict_get k acc) as ->.
      { destruct (dict_get key terms); [|reflexivity].
        now rewrite dict_get_set, Ek. }
      reflexivity.
Qed.

Lemma get_params_lookup (self : BaseObject) (k : string) :
  dict_get k (_get_params self) = dict_get k (_search_terms self).
Proof.
  unfold _get_params. rewrite get_params_fold. simpl.
  destruct (existsb (String.eqb k) (dict_keys (_search_terms self))) eqn:E.
  - now destruct (dict_get k (_search_terms self)).
  - symmetry. now apply dict_get_not_key.
Qed.

Lemma query_data_names {P : Platform} (params : dict) (data : list (string * string)) :
  query_data params = Ok data -> map fst data = dict_keys params.
Proof.
  revert data. induction params as [|[name value] rest IH]; intros data H; simpl in H.
  - injection H as <-. reflexivity.
  - bind_inv H. bind_inv H. injection H as <-. simpl. f_equal. now apply IH.
Qed.

Lemma item_set_id (self x : Item.t) (json : pyval) :
  Item._set self json = Ok x -> Item.id x = Item.id self.
Proof.
  unfold Item._set. intros H. repeat bind_inv H. now injection H as <-.
Qed.

(* ================================================================== *)
(** * Equality of items *)
(* ================================================================== *)

(** C6.  Two items compare equal exactly when their identifiers compare
    equal; for integer or string identifiers that is when the identifiers
    are the same.  Population never changes the identifier, so this holds for
    items populated from records that differ in every other field. *)
Theorem C6_items_equal_iff_ids_equal (x y : Item.t) :
  (Item.__eq__ x (Some y) = true <-> py_eq (Item.id x) (Item.id y) = true) /\
  (plain_id (Item.id x) -> plain_id (Item.id y) ->
   (Item.__eq__ x (Some y) = true <-> Item.id x = Item.id y)) /\
  (forall json1 json2 x' y',
      Item._set x json1 = Ok x' -> Item._set y json2 = Ok y' ->
      Item.__eq__ x' (Some y') = Item.__eq__ x (Some y)).
Proof.
  split; [|split].
  - reflexivity.
  - intros Hx Hy. simpl. now apply py_eq_plain.
  - intros json1 json2 x' y' Hx Hy. simpl.
    now rewrite (item_set_id _ _ _ Hx), (item_set_id _ _ _ Hy).
Qed.

Lemma C6_witness :
  exists x' y',
    Item._set (Item.__init__ (PInt 401186200)) Sample.beatles = Ok x' /\
    Item._set (Item.__init__ (PInt 401186200)) (Sample.abbey_road PNone) = Ok y' /\
    Item.genre x' = Item.genre y' /\
    Item.json x' <> Item.json y' /\
    Item.__eq__ x' (Some y') = true.
Proof.
  eexists. eexists.
  split; [reflexivity|]. split; [reflexivity|].
  split; [reflexivity|]. split; [discriminate|].
  rewrite (proj2 (proj2 (C6_items_equal_iff_ids_equal
                           (Item.__init__ (PInt 401186200))
                           (Item.__init__ (PInt 401186200))))
             Sample.beatles (Sample.abbey_road PNone) _ _ eq_refl eq_refl).
  reflexivity.
Defined.

(** C9.  Compared with [None], an item is neither equal nor unequal: both
    operators answer [False], so [!=] is not the negation of [==] there. *)
Theorem C9_None_neither_equal_nor_unequal (x : Item.t) :
  Item.__eq__ x None = false /\
  Item.__ne__ x None = false /\
  Item.__ne__ x None <> negb (Item.__eq__ x None).
Proof.
  repeat split. simpl. discriminate.
Qed.

(* ================================================================== *)
(** * The offset parameter of a search *)
(* ================================================================== *)

Lemma search_offset_terms
  (query country media entity attribute offset limit order lang version
     explicit : pyval) (positive : bool) :
  py_gt_zero offset = Ok positive ->
  exists s,
    Search query country media entity attribute offset limit order lang
      version explicit = Ok s /\
    dict_get "offset" (_search_terms s) = if positive then Some offset else None.
Proof.
  intros H. unfold Search. rewrite H. cbn [bind].
  eexists. split; [reflexivity|].
  cbn [_search_terms].
  destruct order; repeat rewrite dict_get_set; cbn [String.eqb Ascii.eqb Bool.eqb];
    destruct positive; repeat rewrite dict_get_set;
    cbn [String.eqb Ascii.eqb Bool.eqb];
    destruct (truthy attribute), (truthy entity);
    repeat rewrite dict_get_set; reflexivity.
Qed.

Lemma number_gt_zero (v : pyval) :
  number v ->
  exists b, py_gt_zero v = Ok b /\ (b = true <-> positive_number v).
Proof.
  destruct v; simpl; try contradiction; intros _.
  - exists b. split; [reflexivity|]. destruct b; split; auto; discriminate.
  - exists (0 <? z). split; [reflexivity|]. apply Z.ltb_lt.
  - exists (SFltb (S754_zero false) f). split; [reflexivity|]. reflexivity.
Qed.

(** C7.  A search built with a number as offset carries an [offset]
    parameter exactly when the number is positive: in the search terms, in
    the parameter mapping handed to the request, and among the names of the
    query string.  When present, its value is the offset given. *)
Theorem C7_offset_sent_iff_positive {P : Platform}
  (query country media entity attribute offset limit order lang version
     explicit : pyval) :
  number offset ->
  exists s,
    Search query country media entity attribute offset limit order lang
      version explicit = Ok s /\
    (positive_number offset ->
     dict_get "offset" (_search_terms s) = Some offset /\
     dict_get "offset" (_get_params s) = Some offset /\
     forall data, query_data (_get_params s) = Ok data ->
                  In "offset" (map fst data)) /\
    (~ positive_number offset ->
     dict_get "offset" (_search_terms s) = None /\
     dict_get "offset" (_get_params s) = None /\
     forall data, query_data (_get_params s) = Ok data ->
                  ~ In "offset" (map fst data)).
Proof.
  intros Hn. destruct (number_gt_zero offset Hn) as (b & Hb & Hpos).
  destruct (search_offset_terms query country media entity attribute offset
              limit order lang version explicit b Hb) as (s & Hs & Ht).
  exists s. split; [exact Hs|]. split; intros Hp.
  - apply Hpos in Hp. subst b.
    split; [exact Ht|]. split; [now rewrite get_params_lookup|].
    intros data Hd. rewrite (query_data_names _ _ Hd).
    destruct (in_dec string_dec "offset" (dict_keys (_get_params s))) as [Hin|Hin];
      [exact Hin|].
    apply dict_get_None_keys in Hin. rewrite get_params_lookup in Hin. congruence.
  - assert (b = false) as -> by (destruct b; [exfalso; apply Hp; now apply Hpos | reflexivity]).
    split; [exact Ht|]. split; [now rewrite get_params_lookup|].
    intros data Hd. rewrite (query_data_names _ _ Hd).
    apply dict_get_None_keys. now rewrite get_params_lookup.
Qed.

Lemma C7_witness :
  exists s,
    Search (PStr "Abbey Road") (PStr COUNTRY) (PStr "music") (PStr "album")
      PNone (PInt 0) (PInt 50) PNone (PStr "en_us") (PStr ITUNES_API_VERSION)
      (PStr "Yes") = Ok s /\
    dict_get "offset" (_get_params s) = None.
Proof.
  destruct (C7_offset_sent_iff_positive (P := Sample.answering PNone)
              (PStr "Abbey Road") (PStr COUNTRY) (PStr "music") (PStr "album")
              PNone (PInt 0) (PInt 50) PNone (PStr "en_us")
              (PStr ITUNES_API_VERSION) (PStr "Yes") I)
    as (s & Hs & _ & Hneg).
  exists s. split; [exact Hs|].
  apply Hneg. simpl. lia.
Defined.

(* ================================================================== *)
(** * The price of an album *)
(* ================================================================== *)

Lemma div_half_even_nearest (a b : Z) :
  0 < b -> nearest_integer (div_half_even a b) a b.
Proof.
  intros Hb. unfold nearest_integer, div_half_even.
  pose proof (Z.div_mod a b ltac:(lia)) as Hdiv.
  pose proof (Z.mod_pos_bound a b Hb) as Hmod.
  destruct (Z.compare_spec (2 * (a mod b)) b) as [Heq|Hlt|Hgt];
    [destruct (Z.even (a / b))| |]; nia.
Qed.

(** Rounding a finite float to [k] decimals: the result is the double
    nearest to [n / 10^k], where [n] is an integer nearest to the float's
    exact value times [10^k]. *)
Lemma float_round_nearest (s : bool) (m : positive) (e : Z) (k : nat) :
  exists n,
    float_round (S754_finite s m e) k = nearest_ratio s n (10 ^ Z.of_nat k) /\
    nearest_integer n (Zpos m * 10 ^ Z.of_nat k * 2 ^ Z.max e 0)
      (2 ^ Z.max (- e) 0).
Proof.
  unfold float_round. generalize (10 ^ Z.of_nat k). intros p.
  destruct e as [|q|q]; eexists; (split; [reflexivity|]);
    unfold nearest_integer.
  - change (Z.max (- 0) 0) with 0. change (Z.max 0 0) with 0.
    change (2 ^ 0) with 1. lia.
  - replace (Z.max (- Z.pos q) 0) with 0 by lia.
    replace (Z.max (Z.pos q) 0) with (Z.pos q) by lia.
    change (2 ^ 0) with 1. lia.
  - replace (Z.max (- Z.neg q) 0) with (Z.pos q) by lia.
    replace (Z.max (Z.neg q) 0) with 0 by lia.
    change (2 ^ 0) with 1. rewrite Z.mul_1_r.
    apply div_half_even_nearest. apply Z.pow_pos_nonneg; lia.
Qed.

Lemma album_set_price (self a : Album.t) (json : pyval) :
  Album._set self json = Ok a ->
  exists p,
    py_get json "collectionPrice" (PInt 0) = Ok p /\
    match py_round (if truthy p then p else PInt 0) 4 with
    | Ok price => Album.price a = Some price
    | Raise _ => False
    end.
Proof.
  unfold Album._set. intros H.
  bind_inv H. bind_inv H. bind_inv H. bind_inv H.
  apply bind_Ok in H. destruct H as (p & Hp & H).
  apply bind_Ok in H. destruct H as (price & Hprice & H).
  repeat bind_inv H. injection H as <-.
  exists p. split; [exact Hp|]. rewrite Hprice. reflexivity.
Qed.

(** C5.  The price of an album built from a JSON record is [0] when
    [collectionPrice] is absent or null, and otherwise the price rounded to
    four decimals: [3.996] gives [3.9960], [3.99996] gives [4.0] (not the
    truncation [3.9999]), and in general a finite price gives the double
    nearest to [n / 10^4] for an integer [n] nearest to the price times
    [10^4]. *)
Theorem C5_album_price_rounded (id : pyval) (d : dict) (a : Album.t) :
  Album._set (Album.__init__ id) (PDict d) = Ok a ->
  (dict_get "collectionPrice" d = None \/
   dict_get "collectionPrice" d = Some PNone ->
   Album.price a = Some (PInt 0)) /\
  (dict_get "collectionPrice" d = Some (PFloat (decimal 3996 3)) ->
   Album.price a = Some (PFloat (decimal 39960 4))) /\
  (dict_get "collectionPrice" d = Some (PFloat (decimal 399996 5)) ->
   Album.price a = Some (PFloat (decimal 4 0)) /\
   decimal 4 0 <> decimal 39999 4) /\
  (forall s m e,
      dict_get "collectionPrice" d = Some (PFloat (S754_finite s m e)) ->
      exists n,
        Album.price a = Some (PFloat (nearest_ratio s n (10 ^ 4))) /\
        nearest_integer n (Zpos m * 10 ^ 4 * 2 ^ Z.max e 0) (2 ^ Z.max (- e) 0)).
Proof.
  intros H. destruct (album_set_price _ _ _ H) as (p & Hp & Hprice).
  cbn [py_get] in Hp.
  split; [|split; [|split]].
  - intros [E|E]; rewrite E in Hp; injection Hp as <-; exact Hprice.
  - intros E. rewrite E in Hp. injection Hp as <-.
    assert (py_round
              (if truthy (PFloat (decimal 3996 3))
               then PFloat (decimal 3996 3) else PInt 0) 4 =
            Ok (PFloat (decimal 39960 4))) as Hr by (vm_compute; reflexivity).
    rewrite Hr in Hprice. exact Hprice.
  - intros E. rewrite E in Hp. injection Hp as <-. split.
    + assert (py_round
                (if truthy (PFloat (decimal 399996 5))
                 then PFloat (decimal 399996 5) else PInt 0) 4 =
              Ok (PFloat (decimal 4 0))) as Hr by (vm_compute; reflexivity).
      rewrite Hr in Hprice. exact Hprice.
    + vm_compute. discriminate.
  - intros s m e E. rewrite E in Hp. injection Hp as <-.
    cbn [truthy] in Hprice.
    assert (SFeqb (S754_finite s m e) (S754_zero false) = false) as Hz
        by (unfold SFeqb; simpl; now destruct s).
    rewrite Hz in Hprice. cbn [negb py_round] in Hprice.
    destruct (float_round_nearest s m e 4) as (n & Hn & Hnear).
    exists n. split; [|exact Hnear].
    rewrite Hprice. f_equal. f_equal. exact Hn.
Qed.

Lemma C5_witness :
  exists a,
    Album._set (Album.__init__ (PInt 401186200))
      (Sample.abbey_road (PFloat (decimal 3996 3))) = Ok a /\
    Album.price a = Some (PFloat (decimal 39960 4)).
Proof.
  eexists. split; [vm_compute; reflexivity|].
  apply (C5_album_price_rounded (PInt 401186200)
           [("wrapperType", PStr "collection"); ("collectionId", PInt 401186200);
            ("collectionName", PStr "Abbey Road");
            ("collectionPrice", PFloat (decimal 3996 3));
            ("currency", PStr "USD"); ("trackCount", PInt 17)]).
  - vm_compute. reflexivity.
  - reflexivity.
Defined.

(* ================================================================== *)
(** * The album of a track *)
(* ================================================================== *)

Lemma track_set_album (self t : Track.t) (json : pyval) :
  Track._set self json = Ok t ->
  except_KeyError (Track._set_album (Track.album self) json) (Ok (Some None)) =
  Ok (Track.album t).
Proof.
  unfold Track._set. intros H.
  do 8 bind_inv H.
  apply bind_Ok in H. destruct H as (alb & Halb & H).
  injection H as <-. exact Halb.
Qed.

Lemma set_album_dict (before : attr (option Album.t)) (d : dict) :
  Track._set_album before (PDict d) =
  match dict_get "collectionId" d with
  | Some c => a <- Album._set (Album.__init__ c) (PDict d) ;; Ok (Some (Some a))
  | None => Ok before
  end.
Proof.
  unfold Track._set_album. cbn [py_in py_getitem bind]. unfold dict_has.
  destruct (dict_get "collectionId" d); reflexivity.
Qed.

(** C10 (amended).  After a track has been populated from a record, its
    [album] attribute is absent exactly when the record has no
    [collectionId]; it is [None] exactly when the record has a
    [collectionId] and populating the album raised a [KeyError]; and it is
    an album exactly when the record has a [collectionId] and the album
    built from it was populated without an exception. *)
Theorem C10_track_album_attribute (id : pyval) (d : dict) (t : Track.t) :
  Track._set (Track.__init__ id) (PDict d) = Ok t ->
  (Track.album t = None <-> dict_get "collectionId" d = None) /\
  (Track.album t = Some None <->
   exists c key,
     dict_get "collectionId" d = Some c /\
     Album._set (Album.__init__ c) (PDict d) = Raise (KeyError key)) /\
  (forall a,
      Track.album t = Some (Some a) <->
      exists c,
        dict_get "collectionId" d = Some c /\
        Album._set (Album.__init__ c) (PDict d) = Ok a).
Proof.
  intros H. apply track_set_album in H.
  rewrite set_album_dict in H. cbn [Track.album Track.__init__] in H.
  destruct (dict_get "collectionId" d) as [c|] eqn:Ec.
  - destruct (Album._set (Album.__init__ c) (PDict d)) as [a'|e] eqn:Ea;
      cbn [bind except_KeyError] in H.
    + injection H as <-. split; [|split].
      * split; discriminate.
      * split; [discriminate|]. intros (c' & key & Hc & Hk).
        injection Hc as <-. congruence.
      * intros a. split.
        -- intros Ha. injection Ha as <-. now exists c.
        -- intros (c' & Hc & Hk). injection Hc as <-. congruence.
    + destruct e; try discriminate. injection H as <-. split; [|split].
      * split; discriminate.
      * split; [|reflexivity]. intros _. now exists c, key.
      * intros a. split; [discriminate|].
        intros (c' & Hc & Hk). injection Hc as <-. congruence.
  - cbn [except_KeyError] in H. injection H as <-. split; [|split].
    + split; reflexivity.
    + split; [discriminate|]. intros (c & key & Hc & _). discriminate.
    + intros a. split; [discriminate|]. intros (c & Hc & _). discriminate.
Qed.

Lemma C10_witness :
  exists t,
    Track._set (Track.__init__ (PInt 401186254)) (PDict Sample.something) = Ok t /\
    Track.album t = None.
Proof.
  eexists. split; [vm_compute; reflexivity|].
  apply (proj2 (proj1 (C10_track_album_attribute
                         (PInt 401186254) Sample.something _ eq_refl))).
  reflexivity.
Defined.

(** A track record that names a collection but lacks the fields an album
    needs: [collectionId] is present, yet [album] ends up [None]. *)
Lemma C10_counterexample :
  exists t,
    Track._set (Track.__init__ (PInt 401186254)) (PDict Sample.orphan_track) = Ok t /\
    dict_get "collectionId" Sample.orphan_track = Some (PInt 401186200) /\
    Track.album t = Some None /\
    ~ (exists a, Track.album t = Some (Some a)).
Proof.
  eexists. split; [vm_compute; reflexivity|].
  split; [reflexivity|]. split; [reflexivity|].
  intros (a & Ha). discriminate.
Qed.

(* ================================================================== *)
(** * The result dispatcher *)
(* ================================================================== *)

Lemma artist_set_id (self a : Artist.t) (json : pyval) :
  Artist._set self json = Ok a ->
  Item.id (Artist.base a) = Item.id (Artist.base self).
Proof.
  unfold Artist._set. intros H.
  apply bind_Ok in H. destruct H as (b & Hb & H).
  repeat bind_inv H. injection H as <-. simpl. now apply item_set_id in Hb.
Qed.

Lemma album_set_id (self a : Album.t) (json : pyval) :
  Album._set self json = Ok a ->
  Item.id (Album.base a) = Item.id (Album.base self).
Proof.
  unfold Album._set. intros H.
  apply bind_Ok in H. destruct H as (b & Hb & H).
  repeat bind_inv H. injection H as <-. simpl. now apply item_set_id in Hb.
Qed.

Lemma track_set_id (self t : Track.t) (json : pyval) :
  Track._set self json = Ok t ->
  Item.id (Track.base t) = Item.id (Track.base self).
Proof.
  unfold Track._set. intros H.
  apply bind_Ok in H. destruct H as (b & Hb & H).
  repeat bind_inv H. injection H as <-. simpl. now apply item_set_id in Hb.
Qed.

Lemma entry_type_dict (d : dict) : entry_type (PDict d) = Ok (tag d).
Proof.
  unfold entry_type, tag. cbn [py_in py_getitem bind]. unfold dict_has.
  destruct (dict_get "wrapperType" d); [reflexivity|].
  destruct (dict_get "kind" d); reflexivity.
Qed.

Lemma fallback_id_dict (d : dict) (id : option pyval) :
  fallback_id (PDict d) id =
  Ok match fallback_key d with Some v => Some v | None => id end.
Proof.
  unfold fallback_id, fallback_key. cbn [py_in py_getitem bind]. unfold dict_has.
  destruct (dict_get "collectionId" d); [reflexivity|].
  destruct (dict_get "artistId" d); reflexivity.
Qed.

(** One turn of the loop on a JSON object, branch by branch. *)
Lemma get_entry_dict (d : dict) (id : option pyval) :
  get_entry (PDict d) id =
  if py_eq (tag d) (PStr "artist") then
    match dict_get "artistId" d with
    | Some v => a <- Artist._set (Artist.__init__ v) (PDict d) ;;
                Ok (AnArtist a, Some v)
    | None => Raise (KeyError "artistId")
    end
  else if py_eq (tag d) (PStr "collection") then
    match dict_get "collectionId" d with
    | Some v => a <- Album._set (Album.__init__ v) (PDict d) ;;
                Ok (AnAlbum a, Some v)
    | None => Raise (KeyError "collectionId")
    end
  else if py_eq (tag d) (PStr "track") then
    match dict_get "trackId" d with
    | Some v => t <- Track._set (Track.__init__ v) (PDict d) ;;
                Ok (ATrack t, Some v)
    | None => Raise (KeyError "trackId")
    end
  else
    match match fallback_key d with Some v => Some v | None => id end with
    | Some v => i <- Item._set (Item.__init__ v) (PDict d) ;;
                Ok (AnItem i, Some v)
    | None => Raise (UnboundLocalError "id")
    end.
Proof.
  unfold get_entry. rewrite entry_type_dict. cbn [bind].
  destruct (py_eq (tag d) (PStr "artist")).
  { cbn [py_getitem]. now destruct (dict_get "artistId" d). }
  destruct (py_eq (tag d) (PStr "collection")).
  { cbn [py_getitem]. now destruct (dict_get "collectionId" d). }
  destruct (py_eq (tag d) (PStr "track")).
  { cbn [py_getitem]. now destruct (dict_get "trackId" d). }
  rewrite fallback_id_dict. cbn [bind].
  destruct (match fallback_key d with Some v => Some v | None => id end);
    reflexivity.
Qed.

Lemma known_tag_dec (d : dict) :
  known_tag d <->
  (py_eq (tag d) (PStr "artist") || py_eq (tag d) (PStr "collection")
   || py_eq (tag d) (PStr "track")) = true.
Proof.
  unfold known_tag. rewrite !orb_true_iff, !py_eq_PStr. tauto.
Qed.

(** A record that names its identifier is dispatched to an object exactly
    when that object is its variant; the incoming binding plays no part. *)
Lemma get_entry_variant (d : dict) (id : option pyval) (o : obj) :
  carries_id d ->
  (exists id', get_entry (PDict d) id = Ok (o, id')) <-> variant_of d o.
Proof.
  intros Hc. rewrite get_entry_dict. split.
  - intros (id' & H).
    destruct (py_eq (tag d) (PStr "artist")) eqn:Ea.
    { apply py_eq_PStr in Ea.
      destruct (dict_get "artistId" d) as [v|] eqn:Ev; [|discriminate].
      bind_inv H. injection H as <- <-. now apply artist_variant with v. }
    destruct (py_eq (tag d) (PStr "collection")) eqn:Eb.
    { apply py_eq_PStr in Eb.
      destruct (dict_get "collectionId" d) as [v|] eqn:Ev; [|discriminate].
      bind_inv H. injection H as <- <-. now apply album_variant with v. }
    destruct (py_eq (tag d) (PStr "track")) eqn:Et.
    { apply py_eq_PStr in Et.
      destruct (dict_get "trackId" d) as [v|] eqn:Ev; [|discriminate].
      bind_inv H. injection H as <- <-. now apply track_variant with v. }
    assert (~ known_tag d) as Hk.
    { rewrite known_tag_dec, Ea, Eb, Et. discriminate. }
    destruct Hc as [Hc|Hc]; [contradiction|].
    destruct (fallback_key d) as [v|] eqn:Ev; [|congruence].
    bind_inv H. injection H as <- <-. now apply item_variant with v.
  - intros [v a Ht Hv Hs|v a Ht Hv Hs|v t Ht Hv Hs|v i Hk Hv Hs].
    + rewrite Ht, Hv, Hs. cbn. eauto.
    + rewrite Ht, Hv, Hs. cbn. eauto.
    + rewrite Ht, Hv, Hs. cbn. eauto.
    + rewrite known_tag_dec in Hk.
      destruct (py_eq (tag d) (PStr "artist")); [exfalso; now apply Hk|].
      destruct (py_eq (tag d) (PStr "collection")); [exfalso; now apply Hk|].
      destruct (py_eq (tag d) (PStr "track")); [exfalso; now apply Hk|].
      rewrite Hv, Hs. cbn. eauto.
Qed.

Lemma variant_id (d : dict) (o : obj) :
  variant_of d o -> entry_id d (Item.id (as_item o)).
Proof.
  unfold entry_id.
  intros [v a Ht Hv Hs|v a Ht Hv Hs|v t Ht Hv Hs|v i Hk Hv Hs]; simpl.
  - apply artist_set_id in Hs. rewrite Hs. simpl. tauto.
  - apply album_set_id in Hs. rewrite Hs. simpl. tauto.
  - apply track_set_id in Hs. rewrite Hs. simpl. tauto.
  - apply item_set_id in Hs. rewrite Hs. simpl. tauto.
Qed.

(** The list built so far only grows at its end. *)
Lemma get_loop_acc (results : list pyval) (id : option pyval) (l : list obj) :
  get_loop results id l =
  (items <- get_loop results id [] ;; Ok (l ++ items)%list).
Proof.
  revert id l. induction results as [|entry rest IH]; intros id l; simpl.
  - now rewrite app_nil_r.
  - destruct (get_entry entry id) as [[o id']|e]; simpl; [|reflexivity].
    rewrite (IH id' (l ++ [o])%list), (IH id' [o]).
    destruct (get_loop rest id' []) as [items|e]; simpl; [|reflexivity].
    now rewrite <- app_assoc.
Qed.

Lemma get_loop_cons (entry : pyval) (rest : list pyval) (id : option pyval) :
  get_loop (entry :: rest) id [] =
  (r <- get_entry entry id ;;
   items <- get_loop rest (snd r) [] ;;
   Ok (fst r :: items)).
Proof.
  simpl. destruct (get_entry entry id) as [[o id']|e]; simpl; [|reflexivity].
  now rewrite get_loop_acc.
Qed.

Lemma get_loop_variants (ds : list dict) (id : option pyval) (l : list obj) :
  Forall carries_id ds ->
  get_loop (map PDict ds) id [] = Ok l <-> Forall2 variant_of ds l.
Proof.
  intros Hc. revert id l.
  induction Hc as [|d ds Hd Hds IH]; intros id l.
  - simpl. split.
    + intros H. injection H as <-. constructor.
    + intros H. inversion H. reflexivity.
  - cbn [map]. rewrite get_loop_cons. split.
    + intros H. apply bind_Ok in H. destruct H as ([o id'] & Ho & H).
      apply bind_Ok in H. destruct H as (items & Hitems & H).
      injection H as <-. constructor.
      * apply (get_entry_variant d id o Hd). eauto.
      * now apply (IH id').
    + intros H. inversion H as [|d' o ds' items Ho Hitems]; subst.
      apply (get_entry_variant d id o Hd) in Ho. destruct Ho as (id' & Ho).
      rewrite Ho. cbn [bind snd fst].
      apply (IH id') in Hitems. now rewrite Hitems.
Qed.

Lemma get_results_envelope (env : dict) (results : list pyval) :
  envelope_of env results ->
  get_results (PDict env) = get_loop results None [].
Proof.
  intros (He & Hc & Hr). unfold get_results.
  cbn [py_in py_getitem bind]. unfold dict_has. rewrite He, Hr.
  destruct (dict_get "resultCount" env); [reflexivity | congruence].
Qed.

Lemma get_outcome {P : Platform} (self : BaseObject) :
  outcome (get self) = (r <- outcome (_request self) ;; get_results r).
Proof.
  unfold get, bind_io, lift, outcome.
  destruct (_request self) as [t [r|e]]; reflexivity.
Qed.

Lemma get_trace {P : Platform} (self : BaseObject) :
  trace (get self) =
  [{| params := _get_params self; method := _method self |}].
Proof.
  unfold get, _request, execute, bind_io, lift, trace.
  destruct (_download_response _) as [response|e]; cbn [fst snd].
  - destruct (json_loads _); reflexivity.
  - destruct e; reflexivity.
Qed.

(* ================================================================== *)
(** * Records without tag and identifier *)
(* ================================================================== *)

Lemma item_set_untagged (self : Item.t) (d : dict) :
  dict_get "kind" d = None ->
  dict_get "wrapperType" d = None ->
  Item._set self (PDict d) = Raise (KeyError "wrapperType").
Proof.
  intros Hk Hw. unfold Item._set. cbn [py_in py_getitem bind].
  unfold dict_has. rewrite Hk. cbn [bind]. rewrite Hw. reflexivity.
Qed.

(** Whatever record a turn of the loop has dispatched, the local [id] is
    bound afterwards. *)
Lemma get_entry_binds (entry : pyval) (id id' : option pyval) (o : obj) :
  get_entry entry id = Ok (o, id') -> id' <> None.
Proof.
  unfold get_entry. intros H. bind_inv H.
  destruct (py_eq v (PStr "artist")).
  { do 2 bind_inv H. injection H as _ <-. discriminate. }
  destruct (py_eq v (PStr "collection")).
  { do 2 bind_inv H. injection H as _ <-. discriminate. }
  destruct (py_eq v (PStr "track")).
  { do 2 bind_inv H. injection H as _ <-. discriminate. }
  bind_inv H. destruct v0 as [w|]; [|discriminate].
  bind_inv H. injection H as _ <-. discriminate.
Qed.

Lemma get_loop_app_raise (pre rest : list pyval) (id : option pyval)
  (l : list obj) (e : exn) :
  get_loop pre id l = Raise e -> get_loop (pre ++ rest) id l = Raise e.
Proof.
  revert id l. induction pre as [|entry pre IH]; intros id l; simpl.
  - discriminate.
  - destruct (get_entry entry id) as [[o id']|e']; simpl; [apply IH | trivial].
Qed.

Lemma get_loop_app_ok (pre : list pyval) (id : option pyval) (l l' : list obj) :
  get_loop pre id l = Ok l' ->
  exists id',
    (forall rest, get_loop (pre ++ rest) id l = get_loop rest id' l') /\
    (id' = None -> id = None /\ pre = []).
Proof.
  revert id l. induction pre as [|entry pre IH]; intros id l; simpl.
  - intros H. injection H as <-. exists id. split; [reflexivity | tauto].
  - destruct (get_entry entry id) as [[o id1]|e] eqn:Ee; simpl; [|discriminate].
    intros H. destruct (IH _ _ H) as (id' & Happ & Hnone).
    exists id'. split; [exact Happ|].
    intros Hn. destruct (Hnone Hn) as (Hid1 & _).
    apply get_entry_binds in Ee. contradiction.
Qed.

Lemma get_loop_untagged (d : dict) (post : list pyval) (id : option pyval)
  (l : list obj) :
  dict_get "wrapperType" d = None -> dict_get "kind" d = None ->
  dict_get "collectionId" d = None -> dict_get "artistId" d = None ->
  get_loop (PDict d :: post) id l =
  Raise match id with
        | None => UnboundLocalError "id"
        | Some _ => KeyError "wrapperType"
        end.
Proof.
  intros Hw Hk Hc Ha. cbn [get_loop]. rewrite get_entry_dict.
  unfold tag, fallback_key. rewrite Hw, Hk, Hc, Ha. cbn [py_eq].
  destruct id as [v|]; [|reflexivity].
  now rewrite item_set_untagged.
Qed.

(** C8 (amended).  A record with none of [wrapperType], [kind],
    [collectionId] and [artistId] makes [get] fail, whatever else the results
    array holds.  As the first record it finds the local [id] unbound; after
    records that were dispatched, [id] still holds the previous identifier,
    an item is built with it, and populating that item raises
    [KeyError] for the missing [wrapperType]; and when an earlier record
    already raised an exception, that exception is the one [get] raises. *)
Theorem C8_untagged_record_without_id {P : Platform}
  (self : BaseObject) (env d : dict) (pre post : list pyval) :
  outcome (_request self) = Ok (PDict env) ->
  envelope_of env (pre ++ PDict d :: post) ->
  dict_get "wrapperType" d = None -> dict_get "kind" d = None ->
  dict_get "collectionId" d = None -> dict_get "artistId" d = None ->
  (forall l, outcome (get self) <> Ok l) /\
  (pre = [] -> outcome (get self) = Raise (UnboundLocalError "id")) /\
  (forall l', pre <> [] -> get_loop pre None [] = Ok l' ->
              outcome (get self) = Raise (KeyError "wrapperType")) /\
  (forall e, get_loop pre None [] = Raise e -> outcome (get self) = Raise e).
Proof.
  intros Hr He Hw Hk Hc Ha. rewrite get_outcome, Hr. cbn [bind].
  rewrite (get_results_envelope _ _ He).
  assert (forall l', get_loop pre None [] = Ok l' ->
            exists id' : option pyval, get_loop (pre ++ PDict d :: post) None [] =
                        Raise match id' with
                              | None => UnboundLocalError "id"
                              | Some _ => KeyError "wrapperType"
                              end /\ (id' = None -> pre = [])) as Hok.
  { intros l' Hl. destruct (get_loop_app_ok _ _ _ _ Hl) as (id' & Happ & Hn).
    exists id'. rewrite Happ. split; [now apply get_loop_untagged|].
    intros E. now apply Hn. }
  split; [|split; [|split]].
  - intros l Hl. destruct (get_loop pre None []) as [l'|e] eqn:Epre.
    + destruct (Hok l' eq_refl) as (id' & Hraise & _). congruence.
    + rewrite (get_loop_app_raise _ _ _ _ _ Epre) in Hl. discriminate.
  - intros ->. now apply get_loop_untagged.
  - intros l' Hne Hl. destruct (Hok l' Hl) as (id' & Hraise & Hn).
    destruct id' as [v|]; [exact Hraise | now elim Hne; apply Hn].
  - intros e. apply get_loop_app_raise.
Qed.

Lemma C8_witness :
  outcome (get (P := Sample.answering (Sample.envelope [PDict []]))
             (Lookup (PInt 136975) PNone PNone (PInt 500)))
  = Raise (UnboundLocalError "id").
Proof.
  refine (proj1 (proj2 (C8_untagged_record_without_id
                          (P := Sample.answering (Sample.envelope [PDict []]))
                          (Lookup (PInt 136975) PNone PNone (PInt 500))
                          [("resultCount", PInt 1); ("results", PList [PDict []])]
                          [] [] [] _ _ _ _ _ _)) _);
    try reflexivity.
  split; [reflexivity | split; [discriminate | reflexivity]].
Defined.

(** The same record after one that was dispatched: [get] fails, but with a
    [KeyError], not with an unbound name. *)
Lemma C8_counterexample :
  outcome (get (P := Sample.answering (Sample.envelope [Sample.beatles; PDict []]))
             (Lookup (PInt 136975) PNone PNone (PInt 500)))
  = Raise (KeyError "wrapperType") /\
  outcome (get (P := Sample.answering (Sample.envelope [Sample.beatles; PDict []]))
             (Lookup (PInt 136975) PNone PNone (PInt 500)))
  <> Raise (UnboundLocalError "id").
Proof.
  split; [reflexivity | discriminate].
Qed.

(* ================================================================== *)
(** * Records without tag but with an identifier *)
(* ================================================================== *)

(** C1.  A record of the results array with neither [wrapperType] nor
    [kind] but with a [collectionId] (or else an [artistId]) is taken into
    the fallback branch of [get]: its type is [None], the fallback key is
    bound as identifier and a generic item is constructed with it, as the
    specification describes.  Populating that item then reads [wrapperType], which
    raises [KeyError]: no generic item comes out and [get] returns no list,
    wherever the record stands after records that were dispatched. *)
Theorem C1_untagged_record_with_id {P : Platform}
  (self : BaseObject) (env d : dict) (pre post : list pyval)
  (l' : list obj) (v : pyval) :
  outcome (_request self) = Ok (PDict env) ->
  envelope_of env (pre ++ PDict d :: post) ->
  get_loop pre None [] = Ok l' ->
  dict_get "wrapperType" d = None -> dict_get "kind" d = None ->
  fallback_key d = Some v ->
  entry_type (PDict d) = Ok PNone /\
  (forall id, fallback_id (PDict d) id = Ok (Some v)) /\
  Item.id (Item.__init__ v) = v /\
  Item._set (Item.__init__ v) (PDict d) = Raise (KeyError "wrapperType") /\
  outcome (get self) = Raise (KeyError "wrapperType").
Proof.
  intros Hr He Hpre Hw Hk Hf.
  assert (tag d = PNone) as Ht by (unfold tag; now rewrite Hw, Hk).
  split; [now rewrite entry_type_dict, Ht|].
  split; [intros id; now rewrite fallback_id_dict, Hf|].
  split; [reflexivity|].
  split; [now apply item_set_untagged|].
  rewrite get_outcome, Hr. cbn [bind].
  rewrite (get_results_envelope _ _ He).
  destruct (get_loop_app_ok _ _ _ _ Hpre) as (id' & Happ & _).
  rewrite Happ. cbn [get_loop]. rewrite get_entry_dict, Ht, Hf.
  cbn [py_eq]. now rewrite item_set_untagged.
Qed.

Lemma C1_witness :
  outcome (get (P := Sample.answering (Sample.envelope [PDict Sample.untagged]))
             (Lookup (PInt 5) PNone PNone (PInt 500)))
  = Raise (KeyError "wrapperType").
Proof.
  refine (proj2 (proj2 (proj2 (proj2
            (C1_untagged_record_with_id
               (P := Sample.answering (Sample.envelope [PDict Sample.untagged]))
               (Lookup (PInt 5) PNone PNone (PInt 500))
               [("resultCount", PInt 1);
                ("results", PList [PDict Sample.untagged])]
               Sample.untagged [] [] [] (PInt 5) _ _ _ _ _ _)))));
    try reflexivity.
  split; [reflexivity | split; [discriminate | reflexivity]].
Defined.

(* ================================================================== *)
(** * Navigation accessors and [lookup] *)
(* ================================================================== *)

Lemma outcome_bind_io {A B} (c : io A) (k : A -> io B) :
  outcome (bind_io c k) =
  match outcome c with
  | Ok a => outcome (k a)
  | Raise e => Raise e
  end.
Proof.
  unfold bind_io, outcome. destruct c as [t [a|e]]; simpl; [|reflexivity].
  now destruct (k a).
Qed.

Lemma trace_bind_io {A B} (c : io A) (k : A -> io B) :
  trace (bind_io c k) =
  (trace c ++ match outcome c with
              | Ok a => trace (k a)
              | Raise _ => []
              end)%list.
Proof.
  unfold bind_io, outcome, trace. destruct c as [t [a|e]]; simpl.
  - now destruct (k a).
  - now rewrite app_nil_r.
Qed.

Lemma lift_bind_io {A B} (a : A) (k : A -> io B) :
  bind_io (lift (Ok a)) k = k a.
Proof.
  unfold bind_io, lift. now destruct (k a).
Qed.

Lemma lookup_trace {P : Platform} (id limit : pyval) (entity : string) :
  entity <> EmptyString ->
  trace (get (Lookup id (PStr entity) PNone limit)) =
  [lookup_request id entity limit].
Proof.
  intros He. rewrite get_trace. unfold Lookup, lookup_request.
  cbn [truthy]. apply String.eqb_neq in He. rewrite He.
  reflexivity.
Qed.

(** The trace and the outcome of an accessor that looks up [found] and
    hands its list to [k], which itself sends nothing. *)
Lemma after_lookup {A B} (found : io A) (k : A -> result B) :
  trace (items <~ found ;; lift (k items)) = trace found /\
  outcome (items <~ found ;; lift (k items)) = (items <- outcome found ;; k items).
Proof.
  rewrite trace_bind_io, outcome_bind_io.
  destruct (outcome found) as [items|e]; simpl; now rewrite app_nil_r.
Qed.

Lemma bind_io_ext {A B} (c : io A) (k k' : A -> io B) :
  (forall a, k a = k' a) -> bind_io c k = bind_io c k'.
Proof.
  intros H. unfold bind_io. destruct c as [t [a|e]]; [|reflexivity].
  now rewrite H.
Qed.

Lemma get_tracks_lookup {P : Platform} (self : Item.t) (limit ty : pyval) :
  Item.type self = Some ty -> ty <> PStr "song" ->
  get_tracks self limit =
  (items <~ get (Lookup (Item.id self) (PStr "song") PNone limit) ;;
   lift match items with
        | [] => Raise Nothing_found
        | _ :: rest => Ok (Objects rest)
        end).
Proof.
  intros Ht Hne. unfold get_tracks, self_type. rewrite Ht, lift_bind_io.
  apply py_eq_PStr_false in Hne. rewrite Hne.
  apply bind_io_ext. now intros [|first rest].
Qed.

Lemma item_set_kind (self x : Item.t) (d : dict) (k : pyval) :
  dict_get "kind" d = Some k ->
  Item._set self (PDict d) = Ok x -> Item.type x = Some k.
Proof.
  intros Hk. unfold Item._set. cbn [py_in py_getitem bind]. unfold dict_has.
  rewrite Hk. cbn [bind]. intros H. repeat bind_inv H. now injection H as <-.
Qed.

Lemma track_set_kind (self t : Track.t) (d : dict) (k : pyval) :
  dict_get "kind" d = Some k ->
  Track._set self (PDict d) = Ok t -> Item.type (Track.base t) = Some k.
Proof.
  intros Hk. unfold Track._set. intros H.
  apply bind_Ok in H. destruct H as (b & Hb & H).
  repeat bind_inv H. injection H as <-. simpl.
  now apply item_set_kind with (self := Track.base self) (d := d).
Qed.

(** C3 (amended).  On an item whose type is [song], as a track populated
    from a record of kind [song] is, [get_tracks] returns the item itself and
    sends nothing.  On any other item, one of type [track] included, it
    sends one request, a lookup of the item's
    identifier with the entity filter [song]; it raises [ServiceException]
    with the message [Nothing found!] when that lookup yields no object, and
    otherwise returns the objects found without the first one. *)
Theorem C3_get_tracks {P : Platform} (self : Item.t) (limit ty : pyval) :
  Item.type self = Some ty ->
  let found := get (Lookup (Item.id self) (PStr "song") PNone limit) in
  (ty = PStr "song" -> get_tracks self limit = ([], Ok Self)) /\
  (forall id d t,
      dict_get "kind" d = Some (PStr "song") ->
      Track._set (Track.__init__ id) (PDict d) = Ok t ->
      get_tracks (Track.base t) limit = ([], Ok Self)) /\
  (ty <> PStr "song" ->
   trace (get_tracks self limit) = [lookup_request (Item.id self) "song" limit] /\
   (outcome found = Ok [] ->
    outcome (get_tracks self limit) = Raise Nothing_found) /\
   (forall first rest,
       outcome found = Ok (first :: rest) ->
       outcome (get_tracks self limit) = Ok (Objects rest)) /\
   (forall e, outcome found = Raise e ->
              outcome (get_tracks self limit) = Raise e)).
Proof.
  intros Ht found. split; [|split].
  - intros ->. unfold get_tracks, self_type. now rewrite Ht, lift_bind_io.
  - intros id d t Hk Hs. apply (track_set_kind _ _ _ _ Hk) in Hs.
    unfold get_tracks, self_type. now rewrite Hs, lift_bind_io.
  - intros Hne. rewrite (get_tracks_lookup self limit ty Ht Hne).
    fold found.
    destruct (after_lookup found
                (fun items => match items with
                              | [] => Raise Nothing_found
                              | _ :: rest => Ok (Objects rest)
                              end)) as (Htrace & Hout).
    rewrite Htrace, Hout. split; [|split; [|split]].
    + apply lookup_trace. discriminate.
    + now intros ->.
    + now intros first rest ->.
    + now intros e ->.
Qed.

Lemma C3_witness :
  exists self,
    Item._set (Item.__init__ (PInt 401186254)) (PDict Sample.something) = Ok self /\
    get_tracks (P := Sample.answering PNone) self (PInt 500) = ([], Ok Self).
Proof.
  eexists. split; [vm_compute; reflexivity|].
  refine (proj1 (C3_get_tracks (P := Sample.answering PNone) _ (PInt 500)
                   (PStr "song") _) _); reflexivity.
Defined.

(** A track populated from a record that has [wrapperType: track] but no
    [kind] has the type [track]; [get_tracks] does not return it but looks
    its identifier up, and raises when the lookup finds nothing. *)
Lemma C3_counterexample :
  exists t,
    Track._set (Track.__init__ (PInt 9)) (PDict Fixture.kindless_track) = Ok t /\
    Item.type (Track.base t) = Some (PStr "track") /\
    get_tracks (P := Sample.answering (Sample.envelope []))
      (Track.base t) (PInt 500)
    = ([lookup_request (PInt 9) "song" (PInt 500)], Raise Nothing_found) /\
    get_tracks (P := Sample.answering (Sample.envelope []))
      (Track.base t) (PInt 500)
    <> ([], Ok Self).
Proof.
  eexists. split; [vm_compute; reflexivity|].
  split; [reflexivity|]. split; [reflexivity | discriminate].
Qed.

Lemma get_albums_lookup {P : Platform} (self : Item.t) (limit ty : pyval) :
  Item.type self = Some ty ->
  ty <> PStr "collection" -> ty <> PStr "song" ->
  get_albums self limit =
  (all <~ get (Lookup (Item.id self) (PStr "album") PNone limit) ;;
   lift match all with
        | _ :: _ :: rest => Ok (Objects rest)
        | _ => Raise Nothing_found
        end).
Proof.
  intros Ht Hc Hs. unfold get_albums, self_type. rewrite Ht, lift_bind_io.
  apply py_eq_PStr_false in Hc, Hs. rewrite Hc, Hs.
  apply bind_io_ext. now intros [|first [|second rest]].
Qed.

(** C2 (amended).  [get_albums] returns the item itself when its type is
    [collection] and delegates to [get_album] when it is [song].  On any
    other item it sends one request, a lookup of the item's identifier with
    the entity filter [album]; it raises [ServiceException] with the message
    [Nothing found!] when that lookup yields fewer than two objects, and
    otherwise returns the objects found without the first two. *)
Theorem C2_get_albums {P : Platform} (self : Item.t) (limit ty : pyval) :
  Item.type self = Some ty ->
  let found := get (Lookup (Item.id self) (PStr "album") PNone limit) in
  (ty = PStr "collection" -> get_albums self limit = ([], Ok Self)) /\
  (ty = PStr "song" -> get_albums self limit = get_album self) /\
  (ty <> PStr "collection" -> ty <> PStr "song" ->
   trace (get_albums self limit) = [lookup_request (Item.id self) "album" limit] /\
   (forall all,
       outcome found = Ok all -> (List.length all < 2)%nat ->
       outcome (get_albums self limit) = Raise Nothing_found) /\
   (forall all,
       outcome found = Ok all -> (2 <= List.length all)%nat ->
       outcome (get_albums self limit) = Ok (Objects (skipn 2 all))) /\
   (forall e, outcome found = Raise e ->
              outcome (get_albums self limit) = Raise e)).
Proof.
  intros Ht found. split; [|split].
  - intros ->. unfold get_albums, self_type. now rewrite Ht, lift_bind_io.
  - intros ->. unfold get_albums, self_type. now rewrite Ht, lift_bind_io.
  - intros Hc Hs. rewrite (get_albums_lookup self limit ty Ht Hc Hs).
    fold found.
    destruct (after_lookup found
                (fun all => match all with
                            | _ :: _ :: rest => Ok (Objects rest)
                            | _ => Raise Nothing_found
                            end)) as (Htrace & Hout).
    rewrite Htrace, Hout. split; [|split; [|split]].
    + apply lookup_trace. discriminate.
    + intros all -> Hlen. destruct all as [|first [|second rest]];
        simpl in *; try reflexivity; lia.
    + intros all -> Hlen. destruct all as [|first [|second rest]];
        simpl in *; try reflexivity; lia.
    + now intros e ->.
Qed.

Lemma C2_witness :
  exists self,
    Item._set (Item.__init__ (PInt 401186200)) (Sample.abbey_road PNone) = Ok self /\
    get_albums (P := Sample.answering PNone) self (PInt 500) = ([], Ok Self).
Proof.
  eexists. split; [vm_compute; reflexivity|].
  refine (proj1 (C2_get_albums (P := Sample.answering PNone) _ (PInt 500)
                   (PStr "collection") _) _); reflexivity.
Defined.

(** An artist whose album lookup yields a single object: the two leading
    elements removed would leave the empty list, but [get_albums] raises. *)
Lemma C2_counterexample :
  exists self first,
    Item._set (Item.__init__ (PInt 136975)) Sample.beatles = Ok self /\
    Item.type self = Some (PStr "artist") /\
    outcome (get (P := Sample.answering (Sample.envelope [Sample.beatles]))
               (Lookup (Item.id self) (PStr "album") PNone (PInt 500)))
    = Ok [first] /\
    outcome (get_albums (P := Sample.answering (Sample.envelope [Sample.beatles]))
               self (PInt 500)) = Raise Nothing_found /\
    outcome (get_albums (P := Sample.answering (Sample.envelope [Sample.beatles]))
               self (PInt 500)) <> Ok (Objects (skipn 2 [first])).
Proof.
  eexists. eexists.
  split; [vm_compute; reflexivity|].
  split; [reflexivity|]. split; [vm_compute; reflexivity|].
  split; [reflexivity | discriminate].
Qed.

(** C4.  [lookup] raises [ServiceException] with the message
    [Nothing found!] when the answer is a success envelope with an empty
    results array, as whenever the query yields no object; otherwise it
    returns the first object of the list the query built. *)
Theorem C4_lookup_first_or_nothing_found {P : Platform}
  (id entity country limit : pyval) :
  let query := Lookup id entity country limit in
  (forall env,
      outcome (_request query) = Ok (PDict env) -> envelope_of env [] ->
      outcome (lookup id entity country limit) = Raise Nothing_found) /\
  (outcome (get query) = Ok [] ->
   outcome (lookup id entity country limit) = Raise Nothing_found) /\
  (forall first rest,
      outcome (get query) = Ok (first :: rest) ->
      outcome (lookup id entity country limit) = Ok first) /\
  (forall e, outcome (get query) = Raise e ->
             outcome (lookup id entity country limit) = Raise e).
Proof.
  intros query.
  assert (outcome (lookup id entity country limit) =
          (items <- outcome (get query) ;;
           match items with
           | [] => Raise Nothing_found
           | first :: _ => Ok first
           end)) as Hl.
  { unfold lookup. fold query. rewrite outcome_bind_io.
    destruct (outcome (get query)) as [[|first rest]|e]; reflexivity. }
  rewrite Hl. split; [|split; [|split]].
  - intros env Hr He. rewrite get_outcome, Hr. cbn [bind].
    now rewrite (get_results_envelope _ _ He).
  - now intros ->.
  - now intros first rest ->.
  - now intros e ->.
Qed.

Lemma C4_witness :
  outcome (lookup (P := Sample.answering (Sample.envelope []))
             (PInt 136975) PNone PNone (PInt 500))
  = Raise Nothing_found.
Proof.
  refine (proj1 (C4_lookup_first_or_nothing_found
                   (P := Sample.answering (Sample.envelope []))
                   (PInt 136975) PNone PNone (PInt 500))
            [("resultCount", PInt 0); ("results", PList [])] _ _).
  - reflexivity.
  - split; [reflexivity | split; [discriminate | reflexivity]].
Defined.

(* ================================================================== *)
(** * Cleaning the response *)
(* ================================================================== *)

Lemma prefix_escape (c a : ascii) (s : string) :
  String.prefix (escape c) (String a s) =
  Ascii.eqb a backslash_char &&
  match s with
  | String b _ => Ascii.eqb b c
  | EmptyString => false
  end.
Proof.
  unfold escape. cbn [String.prefix].
  destruct (ascii_dec backslash_char a) as [<-|Hne].
  - rewrite Ascii.eqb_refl. destruct s as [|b s]; [reflexivity|].
    cbn [String.prefix andb].
    destruct (ascii_dec c b) as [<-|Hne].
    + rewrite Ascii.eqb_refl. now destruct s.
    + symmetry. apply Ascii.eqb_neq. congruence.
  - assert (Ascii.eqb a backslash_char = false) as ->
        by (apply Ascii.eqb_neq; congruence).
    reflexivity.
Qed.

Lemma replace_escape_step (c a : ascii) (r s : string) :
  str_replace (escape c) r (String a s) =
  if String.prefix (escape c) (String a s)
  then (r ++ str_replace (escape c) r
               match s with String _ s' => s' | EmptyString => EmptyString end)%string
  else String a (str_replace (escape c) r s).
Proof.
  unfold str_replace. cbn [str_replace_from].
  destruct (String.prefix (escape c) (String a s)) eqn:E; [|reflexivity].
  rewrite prefix_escape in E. destruct s as [|b s]; [|reflexivity].
  now rewrite andb_false_r in E.
Qed.

(** A string without occurrence of the pattern is left as it is. *)
Lemma str_replace_absent (old new s : string) :
  str_contains old s = false -> str_replace old new s = s.
Proof.
  unfold str_replace. induction s as [|a s IH]; [reflexivity|].
  cbn [str_contains str_replace_from]. intros H.
  apply orb_false_iff in H. destruct H as (Hp & Hc).
  cbn [String.prefix] in Hp |- *. rewrite Hp. f_equal. now apply IH.
Qed.

Lemma no_escape_contains (F : ascii -> bool) (c : ascii) (s : string) :
  F c = true -> no_escape F s = true -> str_contains (escape c) s = false.
Proof.
  intros Hc. induction s as [|a s IH]; [reflexivity|].
  cbn [no_escape]. intros H. apply andb_true_iff in H. destruct H as (Ha & Hs).
  change (str_contains (escape c) (String a s))
    with (String.prefix (escape c) (String a s) || str_contains (escape c) s).
  rewrite (IH Hs), orb_false_r, prefix_escape.
  destruct (Ascii.eqb a backslash_char); [|reflexivity].
  destruct s as [|b s]; [reflexivity|]. cbn [andb negb] in Ha |- *.
  destruct (Ascii.eqb b c) eqn:Eb; [|reflexivity].
  apply Ascii.eqb_eq in Eb. subst b. rewrite Hc in Ha. discriminate.
Qed.

Lemma no_escape_tail (F : ascii -> bool) (a : ascii) (s : string) :
  no_escape F (String a s) = true -> no_escape F s = true.
Proof.
  cbn [no_escape]. intros H. now apply andb_true_iff in H.
Qed.

Lemma no_escape_app (F : ascii -> bool) (r s : string) :
  no_backslash r = true -> no_escape F s = true ->
  no_escape F (r ++ s) = true.
Proof.
  intros Hr Hs. induction r as [|a r IH]; [exact Hs|].
  cbn [no_backslash] in Hr. apply andb_true_iff in Hr. destruct Hr as (Ha & Hr).
  cbn [String.append no_escape]. rewrite (IH Hr), andb_true_r.
  apply negb_true_iff in Ha. now rewrite Ha.
Qed.

(** Replacing the escape [\c] by a text without backslash, in a string where
    no backslash is followed by a character of [F]: afterwards no backslash
    is followed by a character of [F] or by [c]. *)
Lemma replace_no_escape (F : ascii -> bool) (c : ascii) (r : string) (n : nat) :
  no_backslash r = true ->
  (F backslash_char || Ascii.eqb backslash_char c) = true ->
  forall s,
    (String.length s <= n)%nat ->
    no_escape F s = true ->
    no_escape (fun x => F x || Ascii.eqb x c) (str_replace (escape c) r s) = true.
Proof.
  intros Hr HF. induction n as [|n IH]; intros s Hlen Hs.
  - destruct s; [reflexivity | simpl in Hlen; lia].
  - destruct s as [|a s]; [reflexivity|].
    rewrite replace_escape_step.
    destruct (String.prefix (escape c) (String a s)) eqn:Ep.
    + apply no_escape_app; [exact Hr|].
      rewrite prefix_escape in Ep. destruct s as [|b s].
      * reflexivity.
      * apply IH; [simpl in Hlen |- *; lia|].
        now apply no_escape_tail in Hs; apply no_escape_tail in Hs.
    + assert (Hs' := no_escape_tail _ _ _ Hs).
      cbn [no_escape]. rewrite IH; [|simpl in Hlen; lia|exact Hs'].
      rewrite andb_true_r. rewrite prefix_escape in Ep.
      destruct (Ascii.eqb a backslash_char) eqn:Ea; [|reflexivity].
      cbn [andb] in Ep |- *. destruct s as [|b s]; [reflexivity|].
      (* the backslash is kept, so [b] is neither in [F] nor [c] *)
      cbn [no_escape] in Hs. rewrite Ea in Hs. cbn [andb] in Hs.
      apply andb_true_iff in Hs. destruct Hs as (Hb & _).
      apply negb_true_iff in Hb.
      assert (Ascii.eqb b backslash_char = false) as Hbb.
      { destruct (Ascii.eqb b backslash_char) eqn:E; [|reflexivity].
        apply Ascii.eqb_eq in E. subst b.
        apply orb_true_iff in HF. destruct HF as [HF|HF]; [congruence|].
        congruence. }
      rewrite replace_escape_step, prefix_escape, Hbb. cbn [andb].
      now rewrite Hb, Ep.
Qed.

Lemma no_escape_none (s : string) : no_escape (fun _ => false) s = true.
Proof.
  induction s as [|a s IH]; [reflexivity|].
  cbn [no_escape]. rewrite IH. destruct s; now rewrite andb_false_r.
Qed.

Lemma no_backslash_no_escape (F : ascii -> bool) (s : string) :
  no_backslash s = true -> no_escape F s = true.
Proof.
  induction s as [|a s IH]; [reflexivity|].
  cbn [no_backslash no_escape]. intros H.
  apply andb_true_iff in H. destruct H as (Ha & Hs).
  apply negb_true_iff in Ha. now rewrite Ha, IH.
Qed.

Lemma no_backslash_cleaned (data : string) :
  no_backslash data = true -> cleaned data.
Proof.
  intros H.
  pose proof (no_backslash_no_escape (fun _ => true) data H) as Hn.
  repeat split.
  - exact (no_escape_contains (fun _ => true) backslash_char data eq_refl Hn).
  - exact (no_escape_contains (fun _ => true) "'"%char data eq_refl Hn).
  - exact (no_escape_contains (fun _ => true) (ascii_of_nat 34) data eq_refl Hn).
  - exact (no_escape_contains (fun _ => true) "u"%char data eq_refl Hn).
Qed.

Lemma clean_json_cleaned (data : string) :
  cleaned data -> clean_json data = data.
Proof.
  intros (H1 & H2 & H3 & H4). unfold clean_json.
  rewrite (str_replace_absent _ _ data H1).
  rewrite (str_replace_absent _ _ data H2).
  rewrite (str_replace_absent _ _ data H3).
  now rewrite (str_replace_absent _ _ data H4).
Qed.

(** X1.  [clean_json] rewrites nothing else: a text in which none of the four
    sequences occurs, in particular a text without backslash, comes back
    unchanged. *)
Theorem X1_clean_json_keeps_clean_text (data : string) :
  cleaned data \/ no_backslash data = true ->
  clean_json data = data.
Proof.
  intros [H|H]; apply clean_json_cleaned; auto using no_backslash_cleaned.
Qed.

Lemma X1_witness : clean_json "{results: [], resultCount: 0}" = "{results: [], resultCount: 0}".
Proof.
  apply X1_clean_json_keeps_clean_text. right. reflexivity.
Defined.

(** X2.  Whatever the response, the text [clean_json] hands to the JSON
    decoder contains none of the four sequences it rewrites (two
    backslashes, backslash-apostrophe, backslash-quote, backslash-u): no
    replacement brings one back.  Cleaning twice is therefore the same as
    cleaning once. *)
Theorem X2_clean_json_output_is_clean (data : string) :
  cleaned (clean_json data) /\
  clean_json (clean_json data) = clean_json data.
Proof.
  assert (cleaned (clean_json data)) as Hc.
  { pose (F1 := fun x => false || Ascii.eqb x backslash_char).
    pose (F2 := fun x => F1 x || Ascii.eqb x "'"%char).
    pose (F3 := fun x => F2 x || Ascii.eqb x (ascii_of_nat 34)).
    pose (F4 := fun x => F3 x || Ascii.eqb x "u"%char).
    set (s1 := str_replace (escape backslash_char) "//" data).
    set (s2 := str_replace (escape "'"%char) dquote s1).
    set (s3 := str_replace (escape (ascii_of_nat 34)) EmptyString s2).
    set (s4 := str_replace (escape "u"%char) EmptyString s3).
    assert (no_escape F1 s1 = true) as H1.
    { apply (replace_no_escape (fun _ => false) backslash_char "//"
               (String.length data)); auto using no_escape_none. }
    assert (no_escape F2 s2 = true) as H2.
    { apply (replace_no_escape F1 "'"%char dquote (String.length s1));
        auto. }
    assert (no_escape F3 s3 = true) as H3.
    { apply (replace_no_escape F2 (ascii_of_nat 34) EmptyString
               (String.length s2)); auto. }
    assert (no_escape F4 s4 = true) as H4.
    { apply (replace_no_escape F3 "u"%char EmptyString (String.length s3));
        auto. }
    change (clean_json data) with s4. repeat split.
    - exact (no_escape_contains F4 backslash_char s4 eq_refl H4).
    - exact (no_escape_contains F4 "'"%char s4 eq_refl H4).
    - exact (no_escape_contains F4 (ascii_of_nat 34) s4 eq_refl H4).
    - exact (no_escape_contains F4 "u"%char s4 eq_refl H4). }
  split; [exact Hc|].
  now apply clean_json_cleaned.
Qed.

(* ================================================================== *)
(** * The request layer *)
(* ================================================================== *)

Lemma bind_Raise {A B} (c : result A) (k : A -> result B) (e : exn) :
  bind c k = Raise e <-> c = Raise e \/ exists a, c = Ok a /\ k a = Raise e.
Proof.
  destruct c as [a|e']; simpl; split.
  - intros H. right. now exists a.
  - intros [H|(a' & Ha & Hk)]; [discriminate | now injection Ha as ->].
  - intros H. left. now injection H as ->.
  - intros [H|(a' & Ha & _)]; [now injection H as -> | discriminate].
Qed.





(** X4.  When the server answers a query with an error status, [get]
    raises [ServiceException] of type [Error] whose message is the body of
    the answer; any other failure of the transport is raised unchanged.  In
    both cases exactly one request has been executed. *)
Theorem X4_http_error_becomes_ServiceException {P : Platform}
  (self : BaseObject) (url : string) (e : exn) :
  let request := {| params := _get_params self; method := _method self |} in
  request_url request = Ok url ->
  urlopen url = Raise e ->
  get self =
  ([request],
   Raise match e with
         | HTTPError body => ServiceException (PStr "Error") (PStr body)
         | _ => e
         end).
Proof.
  intros request Hurl He.
  unfold get, _request, execute, _download_response. fold request.
  rewrite Hurl. cbn [bind]. rewrite He.
  destruct e; reflexivity.
Qed.

Lemma X4_witness :
  outcome (get (P := Fixture.refusing "Bad Request")
             (Lookup (PInt 136975) PNone PNone (PInt 500)))
  = Raise (ServiceException (PStr "Error") (PStr "Bad Request")).
Proof.
  refine (f_equal snd
            (X4_http_error_becomes_ServiceException
               (P := Fixture.refusing "Bad Request")
               (Lookup (PInt 136975) PNone PNone (PInt 500))
               _ (HTTPError "Bad Request") _ _)); reflexivity.
Defined.

(** X5.  [get] reads the envelope in a fixed order.  An [errorMessage]
    field wins over everything else: [get] raises [ServiceException] with
    that message even when results are present.  Without it, a missing
    [resultCount] raises [KeyError] although the count is not used for
    building the list, and only then is a missing [results] noticed. *)
Theorem X5_envelope_is_read_in_order {P : Platform}
  (self : BaseObject) (env : dict) :
  outcome (_request self) = Ok (PDict env) ->
  (forall message,
      dict_get "errorMessage" env = Some message ->
      outcome (get self) = Raise (ServiceException (PStr "Error") message)) /\
  (dict_get "errorMessage" env = None ->
   dict_get "resultCount" env = None ->
   outcome (get self) = Raise (KeyError "resultCount")) /\
  (dict_get "errorMessage" env = None ->
   dict_get "resultCount" env <> None ->
   dict_get "results" env = None ->
   outcome (get self) = Raise (KeyError "results")).
Proof.
  intros Hr. rewrite get_outcome, Hr. cbn [bind]. unfold get_results.
  cbn [py_in py_getitem bind]. unfold dict_has.
  split; [|split].
  - now intros message ->.
  - now intros -> ->.
  - intros -> Hc ->. now destruct (dict_get "resultCount" env).
Qed.

Lemma X5_witness :
  outcome (get (P := Sample.answering
                       (PDict [("resultCount", PInt 1);
                               ("results", PList [Sample.beatles]);
                               ("errorMessage", PStr "Invalid value")]))
             (Lookup (PInt 136975) PNone PNone (PInt 500)))
  = Raise (ServiceException (PStr "Error") (PStr "Invalid value")).
Proof.
  refine (proj1 (X5_envelope_is_read_in_order
                   (P := Sample.answering
                           (PDict [("resultCount", PInt 1);
                                   ("results", PList [Sample.beatles]);
                                   ("errorMessage", PStr "Invalid value")]))
                   _ _ _) _ _); reflexivity.
Defined.

(* ================================================================== *)
(** * Populating objects from a JSON object *)
(* ================================================================== *)

Lemma set_release_dict (d : dict) :
  Item._set_release (PDict d) =
  match dict_get "releaseDate" d with
  | Some v =>
      if truthy v then
        match v with
        | PStr s => Ok (PStr (str_before "T" s))
        | _ => Raise AttributeError
        end
      else Ok PNone
  | None => Ok PNone
  end.
Proof.
  unfold Item._set_release. cbn [py_in py_getitem bind]. unfold dict_has.
  now destruct (dict_get "releaseDate" d).
Qed.

Lemma artwork_step_dict (d : dict) (size : string) (a : dict) :
  Item.artwork_step (PDict d) ("artworkUrl" ++ size) size a =
  Ok (add_size d size a).
Proof.
  unfold Item.artwork_step, add_size. cbn [py_in py_getitem bind].
  unfold dict_has. now destruct (dict_get ("artworkUrl" ++ size) d).
Qed.

Lemma set_artwork_dict (d : dict) :
  Item._set_artwork (PDict d) = Ok (artwork_of d).
Proof.
  unfold Item._set_artwork.
  rewrite (artwork_step_dict d "30"). cbn [bind].
  rewrite (artwork_step_dict d "60"). cbn [bind].
  rewrite (artwork_step_dict d "100"). cbn [bind].
  rewrite (artwork_step_dict d "512"). cbn [bind].
  rewrite (artwork_step_dict d "1100"). reflexivity.
Qed.

Lemma set_url_dict (d : dict) :
  Item._set_url (PDict d) = Ok (first_view_url d).
Proof.
  unfold Item._set_url, first_view_url, field_or_None.
  cbn [py_in py_getitem bind]. unfold dict_has.
  destruct (dict_get "trackViewUrl" d); [reflexivity|].
  destruct (dict_get "collectionViewUrl" d); [reflexivity|].
  now destruct (dict_get "artistViewUrl" d).
Qed.

(** [Item._set] on a JSON object, in one piece. *)
Lemma item_set_dict (self : Item.t) (d : dict) :
  Item._set self (PDict d) =
  match kind_first d with
  | None => Raise (KeyError "wrapperType")
  | Some ty =>
      release_date <- Item._set_release (PDict d) ;;
      Ok {| Item.id := Item.id self; Item.name := Item.name self;
            Item.url := first_view_url d; Item.json := Some (PDict d);
            Item.type := Some ty;
            Item.genre := Some (field_or_None "primaryGenreName" d);
            Item.release_date := Some release_date;
            Item.country_store := Some (field_or_None "country" d);
            Item.artwork := Some (artwork_of d) |}
  end.
Proof.
  assert (Item._set_genre (PDict d) = Ok (field_or_None "primaryGenreName" d))
    as Hg by (unfold Item._set_genre, field_or_None; cbn [py_get];
              now destruct (dict_get "primaryGenreName" d)).
  assert (Item._set_country (PDict d) = Ok (field_or_None "country" d))
    as Hc by (unfold Item._set_country, field_or_None; cbn [py_get];
              now destruct (dict_get "country" d)).
  unfold Item._set, kind_first.
  rewrite Hg, Hc, set_artwork_dict, set_url_dict.
  cbn [py_in py_getitem bind]. unfold dict_has.
  destruct (dict_get "kind" d) as [k|]; cbn [bind].
  - destruct (Item._set_release (PDict d)); reflexivity.
  - destruct (dict_get "wrapperType" d); cbn [bind]; [|reflexivity].
    destruct (Item._set_release (PDict d)); reflexivity.
Qed.

Lemma py_get_dict (d : dict) (k : string) (default : pyval) :
  py_get (PDict d) k default =
  Ok match dict_get k d with Some v => v | None => default end.
Proof.
  cbn [py_get]. now destruct (dict_get k d).
Qed.

Lemma py_getitem_dict (d : dict) (k : string) (v : pyval) :
  py_getitem (PDict d) k = Ok v <-> dict_get k d = Some v.
Proof.
  cbn [py_getitem]. destruct (dict_get k d); split; congruence.
Qed.

Lemma same_record_refl (x : Item.t) : same_record x x.
Proof. repeat split. Qed.

Lemma same_record_named (x : Item.t) (n u : pyval) :
  same_record (Item.with_url (Item.with_name x n) u) x.
Proof. repeat split. Qed.

Lemma same_record_trans (x y z : Item.t) :
  same_record x y -> same_record y z -> same_record x z.
Proof.
  unfold same_record. intros (A1 & A2 & A3 & A4 & A5 & A6)
                             (B1 & B2 & B3 & B4 & B5 & B6).
  repeat split; congruence.
Qed.

(** Populating another object from the same value gives the same
    attributes, apart from [id] and [name]. *)
Lemma item_set_rebase (self self' x : Item.t) (e : pyval) :
  Item._set self e = Ok x ->
  Item._set self' e =
  Ok {| Item.id := Item.id self'; Item.name := Item.name self';
        Item.url := Item.url x; Item.json := Item.json x;
        Item.type := Item.type x; Item.genre := Item.genre x;
        Item.release_date := Item.release_date x;
        Item.country_store := Item.country_store x;
        Item.artwork := Item.artwork x |}.
Proof.
  unfold Item._set. intros H.
  apply bind_Ok in H. destruct H as (v1 & E1 & H). rewrite E1. cbn [bind].
  apply bind_Ok in H. destruct H as (v2 & E2 & H). rewrite E2. cbn [bind].
  apply bind_Ok in H. destruct H as (v3 & E3 & H). rewrite E3. cbn [bind].
  apply bind_Ok in H. destruct H as (v4 & E4 & H). rewrite E4. cbn [bind].
  apply bind_Ok in H. destruct H as (v5 & E5 & H). rewrite E5. cbn [bind].
  apply bind_Ok in H. destruct H as (v6 & E6 & H). rewrite E6. cbn [bind].
  apply bind_Ok in H. destruct H as (v7 & E7 & H). rewrite E7. cbn [bind].
  now injection H as <-.
Qed.

Lemma item_set_same_record (self self' x x' : Item.t) (e : pyval) :
  Item._set self e = Ok x -> Item._set self' e = Ok x' -> same_record x x'.
Proof.
  intros H H'. rewrite (item_set_rebase self self' x e H) in H'.
  injection H' as <-. repeat split.
Qed.

(** Only a JSON object with a [kind] or a [wrapperType] can be populated
    from. *)
Lemma item_set_object (self x : Item.t) (e : pyval) :
  Item._set self e = Ok x ->
  exists d, e = PDict d /\ Item.json x = Some (PDict d) /\
            Item.type x = kind_first d /\ kind_first d <> None.
Proof.
  intros H. destruct e as [| | | |s|l|d].
  1-4: unfold Item._set in H; cbn [py_in bind] in H; discriminate.
  - unfold Item._set in H. cbn [py_in bind] in H.
    destruct (str_contains "kind" s); cbn [py_getitem bind] in H; discriminate.
  - unfold Item._set in H. cbn [py_in bind] in H.
    destruct (existsb _ l); cbn [py_getitem bind] in H; discriminate.
  - rewrite item_set_dict in H.
    destruct (kind_first d) as [ty|] eqn:Ek; [|discriminate].
    bind_inv H. injection H as <-.
    exists d. cbn. repeat split; congruence.
Qed.

Lemma artist_set_base (self a : Artist.t) (e : pyval) :
  Artist._set self e = Ok a ->
  exists b, Item._set (Artist.base self) e = Ok b /\
            same_record (Artist.base a) b.
Proof.
  unfold Artist._set. intros H.
  apply bind_Ok in H. destruct H as (b & Hb & H).
  repeat bind_inv H. injection H as <-.
  exists b. split; [exact Hb | apply same_record_named].
Qed.

Lemma album_set_base (self a : Album.t) (e : pyval) :
  Album._set self e = Ok a ->
  exists b, Item._set (Album.base self) e = Ok b /\
            same_record (Album.base a) b.
Proof.
  unfold Album._set. intros H.
  apply bind_Ok in H. destruct H as (b & Hb & H).
  repeat bind_inv H. injection H as <-.
  exists b. split; [exact Hb | apply same_record_named].
Qed.

Lemma track_set_base (self t : Track.t) (e : pyval) :
  Track._set self e = Ok t ->
  exists b, Item._set (Track.base self) e = Ok b /\
            same_record (Track.base t) b.
Proof.
  unfold Track._set. intros H.
  apply bind_Ok in H. destruct H as (b & Hb & H).
  repeat bind_inv H. injection H as <-.
  exists b. split; [exact Hb | apply same_record_named].
Qed.

(** Every turn of the loop of [get] populates the base attributes of its
    object with [Item._set] on the entry. *)
Lemma get_entry_base (e : pyval) (id id' : option pyval) (o : obj) :
  get_entry e id = Ok (o, id') ->
  exists self b, Item._set self e = Ok b /\ same_record (as_item o) b.
Proof.
  unfold get_entry. intros H. bind_inv H.
  destruct (py_eq v (PStr "artist")).
  { do 2 bind_inv H. injection H as <- _.
    destruct (artist_set_base _ _ _ E1) as (b & Hb & Hs). eauto. }
  destruct (py_eq v (PStr "collection")).
  { do 2 bind_inv H. injection H as <- _.
    destruct (album_set_base _ _ _ E1) as (b & Hb & Hs). eauto. }
  destruct (py_eq v (PStr "track")).
  { do 2 bind_inv H. injection H as <- _.
    destruct (track_set_base _ _ _ E1) as (b & Hb & Hs). eauto. }
  bind_inv H. destruct v0 as [w|]; [|discriminate].
  bind_inv H. injection H as <- _.
  exists (Item.__init__ w), v0. split; [exact E1 | apply same_record_refl].
Qed.

Lemma get_entry_built_from (e : pyval) (id id' : option pyval) (o : obj) :
  get_entry e id = Ok (o, id') -> built_from e o.
Proof.
  intros H. destruct (get_entry_base _ _ _ _ H) as (self & b & Hb & Hs).
  destruct (item_set_object _ _ _ Hb) as (d & -> & Hj & Ht & Hk).
  destruct Hs as (S1 & S2 & _).
  exists d. repeat split; congruence.
Qed.

Lemma get_loop_built_from (results : list pyval) (id : option pyval)
  (l : list obj) :
  get_loop results id [] = Ok l -> Forall2 built_from results l.
Proof.
  revert id l. induction results as [|e rest IH]; intros id l.
  - simpl. intros H. injection H as <-. constructor.
  - rewrite get_loop_cons. intros H.
    apply bind_Ok in H. destruct H as ([o id'] & Ho & H).
    apply bind_Ok in H. destruct H as (items & Hitems & H).
    injection H as <-. constructor.
    + now apply get_entry_built_from in Ho.
    + now apply (IH id').
Qed.

(** X6.  Whatever the service answers, a list returned by [get] has one
    object per entry of the results array, in the same order; every entry
    is then a JSON object with a [kind] or a [wrapperType], the object keeps
    that record as its [json], and its [type] is the record's [kind] when it
    has one and its [wrapperType] otherwise. *)
Theorem X6_objects_keep_their_records {P : Platform}
  (self : BaseObject) (env : dict) (results : list pyval) (l : list obj) :
  outcome (_request self) = Ok (PDict env) ->
  dict_get "results" env = Some (PList results) ->
  outcome (get self) = Ok l ->
  Forall2 built_from results l /\ List.length l = List.length results.
Proof.
  intros Hr Hres. rewrite get_outcome, Hr. cbn [bind]. unfold get_results.
  cbn [py_in py_getitem bind]. unfold dict_has. rewrite Hres.
  destruct (dict_get "errorMessage" env); [discriminate|].
  destruct (dict_get "resultCount" env); [|discriminate].
  cbn [bind py_iter]. intros H. apply get_loop_built_from in H.
  split; [exact H|]. symmetry. now apply Forall2_length in H.
Qed.

Lemma X6_witness :
  exists l,
    outcome (get (P := Sample.answering (Sample.envelope (map PDict Sample.mixed)))
               (Lookup (PInt 136975) PNone PNone (PInt 500))) = Ok l /\
    Forall2 built_from (map PDict Sample.mixed) l.
Proof.
  eexists. split; [vm_compute; reflexivity|].
  refine (proj1 (X6_objects_keep_their_records
                   (P := Sample.answering
                           (Sample.envelope (map PDict Sample.mixed)))
                   (Lookup (PInt 136975) PNone PNone (PInt 500))
                   [("resultCount", PInt 3);
                    ("results", PList (map PDict Sample.mixed))]
                   (map PDict Sample.mixed) _ _ _ _)).
  - reflexivity.
  - reflexivity.
  - vm_compute. reflexivity.
Defined.

Lemma str_before_date_part (s : string) : date_part (str_before "T" s) s.
Proof.
  unfold date_part. induction s as [|a s (IHc & IHs)]; cbn [str_before].
  - split; [reflexivity | now left].
  - destruct (Ascii.eqb a "T") eqn:Ea.
    + apply Ascii.eqb_eq in Ea. subst a. split; [reflexivity|].
      right. now exists s.
    + split.
      * cbn [str_contains String.prefix].
        destruct (ascii_dec "T" a) as [<-|_]; [discriminate Ea | exact IHc].
      * destruct IHs as [IHs|(rest & IHs)].
        -- left. now f_equal.
        -- right. exists rest. cbn [String.append]. now f_equal.
Qed.

(** The attributes [get] reads off a record for any of its objects. *)
Lemma get_entry_attributes (d : dict) (id id' : option pyval) (o : obj) :
  get_entry (PDict d) id = Ok (o, id') ->
  exists release_date,
    Item._set_release (PDict d) = Ok release_date /\
    Item.release_date (as_item o) = Some release_date /\
    Item.genre (as_item o) = Some (field_or_None "primaryGenreName" d) /\
    Item.country_store (as_item o) = Some (field_or_None "country" d) /\
    Item.artwork (as_item o) = Some (artwork_of d).
Proof.
  intros H. destruct (get_entry_base _ _ _ _ H) as (self & b & Hb & Hs).
  rewrite item_set_dict in Hb. destruct (kind_first d); [|discriminate].
  apply bind_Ok in Hb. destruct Hb as (rd & Hrd & Hb). injection Hb as <-.
  destruct Hs as (_ & _ & S3 & S4 & S5 & S6). cbn in S3, S4, S5, S6.
  exists rd. repeat split; assumption.
Qed.

(** X7.  The release date of every object [get] builds is the part of the
    record's [releaseDate] before the first [T] (the whole text when it has
    none), and [None] when the field is absent or falsy.  A [releaseDate]
    that is truthy is necessarily a string: from any other value no object
    is built. *)
Theorem X7_release_date_is_the_date_part
  (d : dict) (id id' : option pyval) (o : obj) :
  get_entry (PDict d) id = Ok (o, id') ->
  (dict_get "releaseDate" d = None ->
   Item.release_date (as_item o) = Some PNone) /\
  (forall v, dict_get "releaseDate" d = Some v -> truthy v = false ->
             Item.release_date (as_item o) = Some PNone) /\
  (forall v, dict_get "releaseDate" d = Some v -> truthy v = true ->
             exists s date,
               v = PStr s /\
               Item.release_date (as_item o) = Some (PStr date) /\
               date_part date s).
Proof.
  intros H. destruct (get_entry_attributes _ _ _ _ H) as (rd & Hrd & Ho & _).
  rewrite set_release_dict in Hrd. rewrite Ho. split; [|split].
  - intros E. rewrite E in Hrd. congruence.
  - intros v E Hv. rewrite E, Hv in Hrd. congruence.
  - intros v E Hv. rewrite E, Hv in Hrd.
    destruct v; try discriminate. injection Hrd as <-.
    exists s, (str_before "T" s). repeat split; try reflexivity;
      apply str_before_date_part.
Qed.

Lemma X7_witness :
  exists a date,
    Album._set (Album.__init__ (PInt 401186200)) (PDict Fixture.album_record) = Ok a /\
    Item.release_date (Album.base a) = Some (PStr date) /\
    date_part date "1969-09-26T07:00:00Z".
Proof.
  eexists.
  destruct (proj2 (proj2 (X7_release_date_is_the_date_part
                            Fixture.album_record None _ _ eq_refl))
              (PStr "1969-09-26T07:00:00Z") eq_refl eq_refl)
    as (s & date & Hv & Hd & Hp).
  injection Hv as <-.
  exists date. split; [vm_compute; reflexivity|]. split; [exact Hd | exact Hp].
Defined.

Lemma dict_get_add_size (d : dict) (size k : string) (a : dict) :
  dict_get k (add_size d size a) =
  if String.eqb k size
  then match dict_get ("artworkUrl" ++ size) d with
       | Some v => Some v
       | None => dict_get k a
       end
  else dict_get k a.
Proof.
  unfold add_size. destruct (dict_get ("artworkUrl" ++ size) d).
  - apply dict_get_set.
  - now destruct (String.eqb k size).
Qed.

Lemma artwork_of_lookup (d : dict) (k : string) :
  dict_get k (artwork_of d) =
  if existsb (String.eqb k) artwork_sizes
  then dict_get ("artworkUrl" ++ k) d
  else None.
Proof.
  unfold artwork_of, artwork_sizes. cbn [fold_left existsb].
  rewrite !dict_get_add_size. cbn [dict_get].
  destruct (String.eqb k "30") eqn:E1;
    [apply String.eqb_eq in E1; subst k; cbn;
     repeat match goal with |- context [dict_get ?x d] => destruct (dict_get x d) end;
     reflexivity|].
  destruct (String.eqb k "60") eqn:E2;
    [apply String.eqb_eq in E2; subst k; cbn;
     repeat match goal with |- context [dict_get ?x d] => destruct (dict_get x d) end;
     reflexivity|].
  destruct (String.eqb k "100") eqn:E3;
    [apply String.eqb_eq in E3; subst k; cbn;
     repeat match goal with |- context [dict_get ?x d] => destruct (dict_get x d) end;
     reflexivity|].
  destruct (String.eqb k "512") eqn:E4;
    [apply String.eqb_eq in E4; subst k; cbn;
     repeat match goal with |- context [dict_get ?x d] => destruct (dict_get x d) end;
     reflexivity|].
  destruct (String.eqb k "1100") eqn:E5;
    [apply String.eqb_eq in E5; subst k; cbn;
     repeat match goal with |- context [dict_get ?x d] => destruct (dict_get x d) end;
     reflexivity|].
  reflexivity.
Qed.

(** X8.  The artwork mapping of every object [get] builds has a key for
    exactly those of the sizes 30, 60, 100, 512 and 1100 for which the
    record has an [artworkUrl<size>] field, with that field's value; it has
    no other key. *)
Theorem X8_artwork_holds_the_sizes_present
  (d : dict) (id id' : option pyval) (o : obj) :
  get_entry (PDict d) id = Ok (o, id') ->
  exists artwork,
    Item.artwork (as_item o) = Some artwork /\
    (forall size, In size artwork_sizes ->
                  dict_get size artwork = dict_get ("artworkUrl" ++ size) d) /\
    (forall k, ~ In k artwork_sizes -> dict_get k artwork = None).
Proof.
  intros H. destruct (get_entry_attributes _ _ _ _ H) as (_ & _ & _ & _ & _ & Ha).
  exists (artwork_of d). split; [exact Ha|]. split.
  - intros size Hin. rewrite artwork_of_lookup.
    destruct (existsb (String.eqb size) artwork_sizes) eqn:E; [reflexivity|].
    exfalso.
    assert (existsb (String.eqb size) artwork_sizes = true) as E'
        by (apply existsb_exists; exists size; split;
            [exact Hin | apply String.eqb_refl]).
    congruence.
  - intros k Hk. rewrite artwork_of_lookup.
    destruct (existsb (String.eqb k) artwork_sizes) eqn:E; [|reflexivity].
    apply existsb_exists in E. destruct E as (x & Hin & Hx).
    apply String.eqb_eq in Hx. now subst x.
Qed.

Lemma X8_witness :
  exists a artwork,
    Album._set (Album.__init__ (PInt 401186200)) (PDict Fixture.album_record) = Ok a /\
    Item.artwork (Album.base a) = Some artwork /\
    dict_get "100" artwork = Some (PStr "http://a/100.jpg") /\
    dict_get "512" artwork = None.
Proof.
  eexists.
  destruct (X8_artwork_holds_the_sizes_present
              Fixture.album_record None _ _ eq_refl)
    as (artwork & Ha & Hsizes & _).
  exists artwork. split; [vm_compute; reflexivity|]. split; [exact Ha|].
  split; rewrite Hsizes; try reflexivity; simpl; tauto.
Defined.

(* ================================================================== *)
(** * Class-specific attributes *)
(* ================================================================== *)

Lemma artist_set_fields (self a : Artist.t) (d : dict) :
  Artist._set self (PDict d) = Ok a ->
  dict_get "artistName" d = Some (Item.name (Artist.base a)) /\
  Item.url (Artist.base a) =
    match dict_get "artistViewUrl" d with
    | Some v => v
    | None => field_or_None "artistLinkUrl" d
    end /\
  Item.id (Artist.base a) = Item.id (Artist.base self).
Proof.
  intros H. pose proof (artist_set_id _ _ _ H) as Hid.
  unfold Artist._set in H.
  apply bind_Ok in H. destruct H as (b & Hb & H).
  apply bind_Ok in H. destruct H as (n & Hn & H).
  apply py_getitem_dict in Hn.
  repeat (rewrite py_get_dict in H; cbn [bind] in H). injection H as <-.
  cbn. repeat split; assumption.
Qed.

Lemma album_set_fields (self a : Album.t) (d : dict) :
  Album._set self (PDict d) = Ok a ->
  dict_get "collectionName" d = Some (Item.name (Album.base a)) /\
  Item.url (Album.base a) = field_or_None "collectionViewUrl" d /\
  Album.artist a = Some match Album.artist a with Some r => r | None => None end /\
  set_artist (PDict d) = Ok match Album.artist a with Some r => r | None => None end.
Proof.
  unfold Album._set. intros H.
  apply bind_Ok in H. destruct H as (b & Hb & H).
  apply bind_Ok in H. destruct H as (n & Hn & H).
  apply py_getitem_dict in Hn.
  repeat (rewrite py_get_dict in H; cbn [bind] in H).
  do 3 bind_inv H. repeat (rewrite py_get_dict in H; cbn [bind] in H).
  apply bind_Ok in H. destruct H as (ar & Har & H).
  injection H as <-. cbn. repeat split; assumption.
Qed.

Lemma track_set_fields (self t : Track.t) (d : dict) :
  Track._set self (PDict d) = Ok t ->
  dict_get "trackName" d = Some (Item.name (Track.base t)) /\
  Item.url (Track.base t) = field_or_None "trackViewUrl" d /\
  Track._set_price (PDict d) = Ok match Track.price t with Some v => v | None => PNone end /\
  Track._set_duration (PDict d) = Ok match Track.duration t with Some v => v | None => PNone end /\
  Track.price t <> None /\ Track.duration t <> None.
Proof.
  unfold Track._set. intros H.
  apply bind_Ok in H. destruct H as (b & Hb & H).
  apply bind_Ok in H. destruct H as (n & Hn & H).
  apply py_getitem_dict in Hn.
  repeat (rewrite py_get_dict in H; cbn [bind] in H).
  apply bind_Ok in H. destruct H as (pr & Hpr & H).
  repeat (rewrite py_get_dict in H; cbn [bind] in H).
  apply bind_Ok in H. destruct H as (du & Hdu & H).
  do 2 bind_inv H. injection H as <-.
  cbn. repeat split; try assumption; discriminate.
Qed.

(** X9.  The name and the store link of an object follow its class, not
    the order [Item._set] uses: an artist is named by [artistName] and
    linked by [artistViewUrl], else [artistLinkUrl]; an album by
    [collectionName] and [collectionViewUrl]; a track by [trackName] and
    [trackViewUrl]; where the link field is missing the link is [None], even
    if the record has another link.  Only a generic item keeps the first of
    [trackViewUrl], [collectionViewUrl], [artistViewUrl], and it has no name
    yet. *)
Theorem X9_name_and_link_follow_the_class
  (d : dict) (id id' : option pyval) (o : obj) :
  get_entry (PDict d) id = Ok (o, id') ->
  match o with
  | AnArtist a =>
      dict_get "artistName" d = Some (Item.name (Artist.base a)) /\
      Item.url (Artist.base a) =
        match dict_get "artistViewUrl" d with
        | Some v => v
        | None => field_or_None "artistLinkUrl" d
        end
  | AnAlbum a =>
      dict_get "collectionName" d = Some (Item.name (Album.base a)) /\
      Item.url (Album.base a) = field_or_None "collectionViewUrl" d
  | ATrack t =>
      dict_get "trackName" d = Some (Item.name (Track.base t)) /\
      Item.url (Track.base t) = field_or_None "trackViewUrl" d
  | AnItem i =>
      Item.name i = PNone /\ Item.url i = first_view_url d
  end.
Proof.
  rewrite get_entry_dict. intros H.
  destruct (py_eq (tag d) (PStr "artist")).
  { destruct (dict_get "artistId" d); [|discriminate].
    bind_inv H. injection H as <- _.
    now destruct (artist_set_fields _ _ _ E) as (A & B & _). }
  destruct (py_eq (tag d) (PStr "collection")).
  { destruct (dict_get "collectionId" d); [|discriminate].
    bind_inv H. injection H as <- _.
    now destruct (album_set_fields _ _ _ E) as (A & B & _). }
  destruct (py_eq (tag d) (PStr "track")).
  { destruct (dict_get "trackId" d); [|discriminate].
    bind_inv H. injection H as <- _.
    now destruct (track_set_fields _ _ _ E) as (A & B & _). }
  destruct (match fallback_key d with Some v => Some v | None => id end);
    [|discriminate].
  bind_inv H. injection H as <- _.
  rewrite item_set_dict in E. destruct (kind_first d); [|discriminate].
  bind_inv E. injection E as <-. now cbn.
Qed.

Lemma X9_witness :
  exists t,
    Track._set (Track.__init__ (PInt 401186254)) (PDict Fixture.song_record) = Ok t /\
    Item.url (Track.base t) = PStr "http://a/track".
Proof.
  eexists. split; [vm_compute; reflexivity|].
  exact (proj2 (X9_name_and_link_follow_the_class
                  Fixture.song_record None _ _ eq_refl)).
Defined.

Lemma same_record_sym (x y : Item.t) : same_record x y -> same_record y x.
Proof.
  unfold same_record. intros (A1 & A2 & A3 & A4 & A5 & A6).
  repeat split; congruence.
Qed.

Lemma set_artist_dict (d : dict) :
  set_artist (PDict d) =
  if truthy (field_or_None "artistId" d) then
    a <- Artist._set (Artist.__init__ (field_or_None "artistId" d)) (PDict d) ;;
    Ok (Some a)
  else Ok None.
Proof.
  unfold set_artist, field_or_None. rewrite py_get_dict. cbn [bind py_getitem].
  destruct (dict_get "artistId" d) as [v|]; [|reflexivity].
  now destruct (truthy v).
Qed.

(** The artist nested in an album or a track, when there is one. *)
Lemma set_artist_some (d : dict) (ar : Artist.t) (self x : Item.t) :
  set_artist (PDict d) = Ok (Some ar) ->
  Item._set self (PDict d) = Ok x ->
  truthy (field_or_None "artistId" d) = true /\
  Item.id (Artist.base ar) = field_or_None "artistId" d /\
  dict_get "artistName" d = Some (Item.name (Artist.base ar)) /\
  same_record (Artist.base ar) x.
Proof.
  rewrite set_artist_dict. intros H Hx.
  destruct (truthy (field_or_None "artistId" d)); [|discriminate].
  bind_inv H. injection H as <-.
  destruct (artist_set_fields _ _ _ E) as (Hn & _ & Hid).
  destruct (artist_set_base _ _ _ E) as (b & Hb & Hs).
  split; [reflexivity|]. split; [exact Hid|]. split; [exact Hn|].
  eapply same_record_trans; [exact Hs|].
  now apply (item_set_same_record _ _ _ _ _ Hb Hx).
Qed.

(** X10.  An album has a nested artist exactly when the record's
    [artistId] is truthy (present and neither null, zero nor empty).  That
    artist is built from the album's own record: its identifier is the
    [artistId], its name the [artistName], and all the attributes read off
    the record, its [type] included, are those of the album. *)
Theorem X10_album_artist_shares_the_record
  (self a : Album.t) (d : dict) :
  Album._set self (PDict d) = Ok a ->
  (Album.artist a = Some None <-> truthy (field_or_None "artistId" d) = false) /\
  (forall ar,
      Album.artist a = Some (Some ar) ->
      truthy (field_or_None "artistId" d) = true /\
      Item.id (Artist.base ar) = field_or_None "artistId" d /\
      dict_get "artistName" d = Some (Item.name (Artist.base ar)) /\
      same_record (Artist.base ar) (Album.base a)).
Proof.
  intros H.
  destruct (album_set_fields _ _ _ H) as (_ & _ & Har & Hset).
  destruct (album_set_base _ _ _ H) as (b & Hb & Hs).
  split.
  - rewrite Har. rewrite set_artist_dict in Hset.
    destruct (truthy (field_or_None "artistId" d)).
    + bind_inv Hset. injection Hset as <-. split; discriminate.
    + injection Hset as <-. split; reflexivity.
  - intros ar Ea. rewrite Ea in Hset.
    destruct (set_artist_some _ _ _ _ Hset Hb) as (A1 & A2 & A3 & A4).
    split; [exact A1|]. split; [exact A2|]. split; [exact A3|].
    eapply same_record_trans; [exact A4 | now apply same_record_sym].
Qed.

Lemma X10_witness :
  exists a ar,
    Album._set (Album.__init__ (PInt 401186200)) (PDict Fixture.album_record) = Ok a /\
    Album.artist a = Some (Some ar) /\
    Item.id (Artist.base ar) = PInt 136975 /\
    Item.type (Artist.base ar) = Some (PStr "collection").
Proof.
  eexists. eexists. split; [vm_compute; reflexivity|].
  split; [reflexivity|].
  destruct (proj2 (X10_album_artist_shares_the_record
                     (Album.__init__ (PInt 401186200)) _
                     Fixture.album_record eq_refl) _ eq_refl)
    as (_ & Hid & _ & (_ & Hty & _)).
  split; [exact Hid | exact Hty].
Defined.

(** X11.  The album nested in a track is built from the track's own
    record, so it carries the track's [type].  For a song this makes the
    nested album a [song] as well: [get_tracks] on it returns the album
    itself and sends no request. *)
Theorem X11_album_of_a_song_is_typed_song {P : Platform}
  (self t : Track.t) (al : Album.t) (d : dict) (limit : pyval) :
  Track._set self (PDict d) = Ok t ->
  Track.album self = None ->
  Track.album t = Some (Some al) ->
  dict_get "collectionId" d = Some (Item.id (Album.base al)) /\
  same_record (Album.base al) (Track.base t) /\
  (dict_get "kind" d = Some (PStr "song") ->
   get_tracks (Album.base al) limit = ([], Ok Self)).
Proof.
  intros H Hself Hal.
  destruct (track_set_base _ _ _ H) as (b & Hb & Hs).
  pose proof (track_set_album _ _ _ H) as Halb.
  rewrite set_album_dict, Hself, Hal in Halb.
  destruct (dict_get "collectionId" d) as [c|]; [|discriminate].
  destruct (Album._set (Album.__init__ c) (PDict d)) as [al'|e] eqn:Ea;
    [|destruct e; discriminate].
  cbn [bind except_KeyError] in Halb. injection Halb as ->.
  destruct (album_set_base _ _ _ Ea) as (b' & Hb' & Hs').
  assert (same_record (Album.base al) (Track.base t)) as Hsame.
  { eapply same_record_trans; [exact Hs'|].
    eapply same_record_trans; [|apply same_record_sym; exact Hs].
    now apply (item_set_same_record _ _ _ _ _ Hb' Hb). }
  split; [|split; [exact Hsame|]].
  - f_equal. symmetry. now apply album_set_id in Ea.
  - intros Hk. destruct Hsame as (_ & Hty & _).
    rewrite (track_set_kind _ _ _ _ Hk H) in Hty.
    unfold get_tracks, self_type. now rewrite Hty, lift_bind_io.
Qed.

Lemma X11_witness :
  exists t al,
    Track._set (Track.__init__ (PInt 401186254)) (PDict Fixture.song_record) = Ok t /\
    Track.album t = Some (Some al) /\
    get_tracks (P := Sample.answering PNone) (Album.base al) (PInt 500)
    = ([], Ok Self).
Proof.
  eexists. eexists. split; [vm_compute; reflexivity|].
  split; [reflexivity|].
  apply (X11_album_of_a_song_is_typed_song
           (P := Sample.answering PNone)
           (Track.__init__ (PInt 401186254)) _ _ Fixture.song_record
           (PInt 500) eq_refl eq_refl eq_refl).
  reflexivity.
Defined.

(* ================================================================== *)
(** * Exceptions of population *)
(* ================================================================== *)

(** Splits a hypothesis [x <- c ;; k = Raise e] into its two cases. *)
Ltac raise_inv H :=
  let a := fresh "v" in
  let Ha := fresh "E" in
  apply bind_Raise in H; destruct H as [H|(a & Ha & H)].

Lemma getitem_KeyError (d : dict) (key k : string) :
  py_getitem (PDict d) key = Raise (KeyError k) ->
  k = key /\ dict_get k d = None.
Proof.
  cbn [py_getitem]. destruct (dict_get key d) eqn:E; [discriminate|].
  intros H. injection H as <-. now split.
Qed.

Lemma py_round_raises (v : pyval) (n : nat) (e : exn) :
  py_round v n = Raise e -> e = TypeError.
Proof.
  destruct v; simpl; congruence.
Qed.

Lemma item_set_KeyError (self : Item.t) (d : dict) (k : string) :
  Item._set self (PDict d) = Raise (KeyError k) ->
  k = "wrapperType" /\ dict_get k d = None.
Proof.
  rewrite item_set_dict. unfold kind_first.
  destruct (dict_get "kind" d).
  - rewrite set_release_dict. destruct (dict_get "releaseDate" d) as [v|];
      [|discriminate].
    destruct (truthy v); [|discriminate]. destruct v; discriminate.
  - destruct (dict_get "wrapperType" d) eqn:E.
    + rewrite set_release_dict. destruct (dict_get "releaseDate" d) as [v|];
        [|discriminate].
      destruct (truthy v); [|discriminate]. destruct v; discriminate.
    + intros H. injection H as <-. now split.
Qed.

Lemma artist_set_KeyError (self : Artist.t) (d : dict) (k : string) :
  Artist._set self (PDict d) = Raise (KeyError k) ->
  In k ["wrapperType"; "artistName"] /\ dict_get k d = None.
Proof.
  unfold Artist._set. intros H.
  raise_inv H.
  { apply item_set_KeyError in H. destruct H as (-> & H). simpl. tauto. }
  raise_inv H.
  { apply getitem_KeyError in H. destruct H as (-> & H). simpl. tauto. }
  repeat (rewrite py_get_dict in H; cbn [bind] in H). discriminate.
Qed.

Lemma set_artist_KeyError (d : dict) (k : string) :
  set_artist (PDict d) = Raise (KeyError k) ->
  In k ["wrapperType"; "artistName"] /\ dict_get k d = None.
Proof.
  rewrite set_artist_dict.
  destruct (truthy (field_or_None "artistId" d)); [|discriminate].
  intros H. raise_inv H; [|discriminate].
  now apply artist_set_KeyError in H.
Qed.

Lemma set_price_dict (d : dict) :
  Track._set_price (PDict d) =
  match dict_get "trackPrice" d with
  | Some v => if is_not_None v then py_round v 4 else Ok PNone
  | None => Ok PNone
  end.
Proof.
  unfold Track._set_price. cbn [py_in py_getitem bind]. unfold dict_has.
  now destruct (dict_get "trackPrice" d).
Qed.

Lemma set_duration_dict (d : dict) :
  Track._set_duration (PDict d) =
  match dict_get "trackTimeMillis" d with
  | Some v =>
      if is_not_None v then
        s <- py_truediv_float v Track.thousand ;; py_round s 2
      else Ok PNone
  | None => Ok PNone
  end.
Proof.
  unfold Track._set_duration. cbn [py_in py_getitem py_get bind].
  unfold dict_has.
  destruct (dict_get "trackTimeMillis" d) as [v|]; [|reflexivity].
  cbn [bind]. destruct (is_not_None v); reflexivity.
Qed.

Lemma set_price_no_KeyError (d : dict) (k : string) :
  Track._set_price (PDict d) <> Raise (KeyError k).
Proof.
  rewrite set_price_dict. destruct (dict_get "trackPrice" d) as [v|];
    [|discriminate].
  destruct (is_not_None v); [|discriminate].
  intros H. apply py_round_raises in H. discriminate.
Qed.

Lemma set_duration_no_KeyError (d : dict) (k : string) :
  Track._set_duration (PDict d) <> Raise (KeyError k).
Proof.
  rewrite set_duration_dict. destruct (dict_get "trackTimeMillis" d) as [v|];
    [|discriminate].
  destruct (is_not_None v); [|discriminate].
  intros H. raise_inv H.
  - destruct v; simpl in H; try discriminate.
    unfold float_of_int in H.
    destruct (binary_normalize prec emax z 0 false); discriminate.
  - apply py_round_raises in H. discriminate.
Qed.

Lemma except_KeyError_no_KeyError {A} (c : result A) (a : A) (k : string) :
  except_KeyError c (Ok a) <> Raise (KeyError k).
Proof.
  destruct c as [x|[]]; simpl; discriminate.
Qed.

(** X12.  Which missing keys make population fail.  A [KeyError] raised
    while populating an object always names a key the record lacks, and the
    key is [wrapperType] (for a record with neither [kind] nor
    [wrapperType]) or a required field of the class: [artistName] for an
    artist; [collectionName], [currency], [trackCount], and [artistName]
    for the nested artist, for an album; only [trackName] for a track,
    whose nested artist and album never make it fail this way. *)
Theorem X12_missing_keys_that_fail_population (d : dict) (k : string) :
  (forall self, Artist._set self (PDict d) = Raise (KeyError k) ->
                In k ["wrapperType"; "artistName"] /\ dict_get k d = None) /\
  (forall self, Album._set self (PDict d) = Raise (KeyError k) ->
                In k ["wrapperType"; "collectionName"; "currency";
                      "trackCount"; "artistName"] /\
                dict_get k d = None) /\
  (forall self, Track._set self (PDict d) = Raise (KeyError k) ->
                In k ["wrapperType"; "trackName"] /\ dict_get k d = None).
Proof.
  split; [|split]; intros self H.
  - now apply artist_set_KeyError in H.
  - unfold Album._set in H.
    raise_inv H.
    { apply item_set_KeyError in H. destruct H as (-> & H). simpl. tauto. }
    raise_inv H.
    { apply getitem_KeyError in H. destruct H as (-> & H). simpl. tauto. }
    repeat (rewrite py_get_dict in H; cbn [bind] in H).
    raise_inv H.
    { apply py_round_raises in H. discriminate. }
    raise_inv H.
    { apply getitem_KeyError in H. destruct H as (-> & H). simpl. tauto. }
    raise_inv H.
    { apply getitem_KeyError in H. destruct H as (-> & H). simpl. tauto. }
    repeat (rewrite py_get_dict in H; cbn [bind] in H).
    raise_inv H; [|discriminate].
    apply set_artist_KeyError in H. destruct H as (Hin & H).
    split; [|exact H]. simpl in Hin |- *. tauto.
  - unfold Track._set in H.
    raise_inv H.
    { apply item_set_KeyError in H. destruct H as (-> & H). simpl. tauto. }
    raise_inv H.
    { apply getitem_KeyError in H. destruct H as (-> & H). simpl. tauto. }
    repeat (rewrite py_get_dict in H; cbn [bind] in H).
    raise_inv H.
    { now apply set_price_no_KeyError in H. }
    repeat (rewrite py_get_dict in H; cbn [bind] in H).
    raise_inv H.
    { now apply set_duration_no_KeyError in H. }
    raise_inv H.
    { now apply except_KeyError_no_KeyError in H. }
    raise_inv H; [|discriminate].
    now apply except_KeyError_no_KeyError in H.
Qed.

Lemma X12_witness :
  Album._set (Album.__init__ (PInt 401186200))
    (PDict [("wrapperType", PStr "collection");
            ("collectionName", PStr "Abbey Road")])
  = Raise (KeyError "currency") /\
  dict_get "currency"
    [("wrapperType", PStr "collection"); ("collectionName", PStr "Abbey Road")]
  = None.
Proof.
  split; [reflexivity|].
  exact (proj2 (proj1 (proj2 (X12_missing_keys_that_fail_population
                                [("wrapperType", PStr "collection");
                                 ("collectionName", PStr "Abbey Road")]
                                "currency"))
                  (Album.__init__ (PInt 401186200)) eq_refl)).
Defined.

(** X13.  Only [KeyError] is forgiven when a track populates its album.
    If the record names a collection and populating the album from it
    raises any other exception (a [collectionPrice] that is a non-empty
    string raises [TypeError], for one), no track is built from the record
    at all. *)
Theorem X13_track_forgives_only_KeyError
  (self : Track.t) (d : dict) (c : pyval) (e : exn) :
  dict_get "collectionId" d = Some c ->
  Album._set (Album.__init__ c) (PDict d) = Raise e ->
  (forall k, e <> KeyError k) ->
  forall t, Track._set self (PDict d) <> Ok t.
Proof.
  intros Hc He Hne t H. apply track_set_album in H.
  rewrite set_album_dict, Hc, He in H. cbn [bind except_KeyError] in H.
  destruct e; try discriminate. now apply (Hne key).
Qed.

Lemma X13_witness :
  ~ (exists t,
        Track._set (Track.__init__ (PInt 401186254))
          (PDict (("collectionPrice", PStr "free") :: Fixture.song_record))
        = Ok t).
Proof.
  intros (t & H).
  assert (forall k, TypeError <> KeyError k) as Hne by (intros k; discriminate).
  exact (X13_track_forgives_only_KeyError
           (Track.__init__ (PInt 401186254))
           (("collectionPrice", PStr "free") :: Fixture.song_record)
           (PInt 401186200) TypeError eq_refl eq_refl Hne t H).
Defined.

Lemma py_round_not_None (v : pyval) (n : nat) :
  py_round v n <> Ok PNone.
Proof.
  destruct v; simpl; discriminate.
Qed.

(** X14.  A track's price and duration are [None] exactly when the record
    lacks the field or holds null there; a zero is kept as a number.  An
    integer price is kept as that integer, and a duration is always a
    float, whatever number the milliseconds were. *)
Theorem X14_track_price_and_duration_propagate_null
  (self t : Track.t) (d : dict) :
  Track._set self (PDict d) = Ok t ->
  (Track.price t = Some PNone <->
   dict_get "trackPrice" d = None \/ dict_get "trackPrice" d = Some PNone) /\
  (Track.duration t = Some PNone <->
   dict_get "trackTimeMillis" d = None \/
   dict_get "trackTimeMillis" d = Some PNone) /\
  (forall z, dict_get "trackPrice" d = Some (PInt z) ->
             Track.price t = Some (PInt z)) /\
  (forall v, dict_get "trackTimeMillis" d = Some v -> v <> PNone ->
             exists f, Track.duration t = Some (PFloat f)).
Proof.
  intros H.
  destruct (track_set_fields _ _ _ H) as (_ & _ & Hp & Hd & Hp' & Hd').
  rewrite set_price_dict in Hp. rewrite set_duration_dict in Hd.
  destruct (Track.price t) as [p|]; [|contradiction].
  destruct (Track.duration t) as [du|]; [|contradiction].
  split; [|split; [|split]].
  - destruct (dict_get "trackPrice" d) as [v|].
    + destruct v; cbn [is_not_None] in Hp;
        try (split; [intros E; injection E as ->;
                     now apply py_round_not_None in Hp
                    |intros [E|E]; discriminate]).
      injection Hp as <-. split; auto.
    + injection Hp as <-. split; auto.
  - destruct (dict_get "trackTimeMillis" d) as [v|].
    + destruct v; cbn [is_not_None] in Hd;
        try (split; [intros E; injection E as ->; bind_inv Hd;
                     now apply py_round_not_None in Hd
                    |intros [E|E]; discriminate]).
      injection Hd as <-. split; auto.
    + injection Hd as <-. split; auto.
  - intros z E. rewrite E in Hp. cbn in Hp. congruence.
  - intros v E Hv. rewrite E in Hd.
    destruct v; try contradiction; cbn [is_not_None] in Hd; bind_inv Hd;
      try discriminate.
    + cbn in E0. injection E0 as <-. cbn in Hd. injection Hd as <-. eauto.
    + cbn in E0. bind_inv E0. injection E0 as <-. cbn in Hd.
      injection Hd as <-. eauto.
    + cbn in E0. injection E0 as <-. cbn in Hd. injection Hd as <-. eauto.
Qed.

Lemma X14_witness :
  exists t,
    Track._set (Track.__init__ (PInt 401186254)) (PDict Fixture.song_record) = Ok t /\
    Track.price t = Some PNone /\ Track.duration t = Some PNone.
Proof.
  eexists. split; [vm_compute; reflexivity|].
  destruct (X14_track_price_and_duration_propagate_null
              (Track.__init__ (PInt 401186254)) _ Fixture.song_record eq_refl)
    as (Hp & Hd & _).
  split; [apply Hp | apply Hd]; left; reflexivity.
Defined.

(* ================================================================== *)
(** * The other navigation accessors *)
(* ================================================================== *)

Lemma get_album_lookup {P : Platform} (self : Item.t) (ty : pyval) :
  Item.type self = Some ty -> ty <> PStr "collection" ->
  get_album self =
  (items <~ get (Lookup (Item.id self) (PStr "album") PNone (PInt 1)) ;;
   lift match items with
        | _ :: second :: _ => Ok (Object second)
        | _ => Raise Nothing_found
        end).
Proof.
  intros Ht Hne. unfold get_album, self_type. rewrite Ht, lift_bind_io.
  apply py_eq_PStr_false in Hne. rewrite Hne.
  apply bind_io_ext. now intros [|first [|second rest]].
Qed.

(** X15.  [get_album] returns the item itself when its type is
    [collection].  On any other item it sends one lookup of the item's
    identifier with the entity filter [album] and the limit 1, and returns
    the second object found; with fewer than two objects it raises
    [ServiceException] with the message [Nothing found!].  [get_albums] on a
    song goes the same way, so the limit given to it is not the one sent. *)
Theorem X15_get_album {P : Platform} (self : Item.t) (ty : pyval) :
  Item.type self = Some ty ->
  let found := get (Lookup (Item.id self) (PStr "album") PNone (PInt 1)) in
  (ty = PStr "collection" -> get_album self = ([], Ok Self)) /\
  (ty <> PStr "collection" ->
   trace (get_album self) = [lookup_request (Item.id self) "album" (PInt 1)] /\
   (forall all,
       outcome found = Ok all -> (List.length all < 2)%nat ->
       outcome (get_album self) = Raise Nothing_found) /\
   (forall first second rest,
       outcome found = Ok (first :: second :: rest) ->
       outcome (get_album self) = Ok (Object second)) /\
   (forall e, outcome found = Raise e ->
              outcome (get_album self) = Raise e)) /\
  (ty = PStr "song" ->
   forall limit,
     trace (get_albums self limit) =
     [lookup_request (Item.id self) "album" (PInt 1)]).
Proof.
  intros Ht found.
  assert (ty <> PStr "collection" ->
          trace (get_album self) = [lookup_request (Item.id self) "album" (PInt 1)] /\
          outcome (get_album self) =
          (items <- outcome found ;;
           match items with
           | _ :: second :: _ => Ok (Object second)
           | _ => Raise Nothing_found
           end)) as Hlookup.
  { intros Hne. rewrite (get_album_lookup self ty Ht Hne). fold found.
    destruct (after_lookup found
                (fun items => match items with
                              | _ :: second :: _ => Ok (Object second)
                              | _ => Raise Nothing_found
                              end)) as (Htrace & Hout).
    rewrite Htrace, Hout. split; [|reflexivity].
    apply lookup_trace. discriminate. }
  split; [|split].
  - intros ->. unfold get_album, self_type. now rewrite Ht, lift_bind_io.
  - intros Hne. destruct (Hlookup Hne) as (Htrace & Hout).
    split; [exact Htrace|]. rewrite Hout. split; [|split].
    + intros all -> Hlen. destruct all as [|first [|second rest]];
        simpl in *; try reflexivity; lia.
    + now intros first second rest ->.
    + now intros e ->.
  - intros -> limit.
    assert (get_albums self limit = get_album self) as ->
        by (unfold get_albums, self_type; now rewrite Ht, lift_bind_io).
    apply Hlookup. discriminate.
Qed.

Lemma X15_witness :
  exists self,
    Item._set (Item.__init__ (PInt 401186254)) (PDict Sample.something) = Ok self /\
    trace (get_albums (P := Sample.answering PNone) self (PInt 500)) =
    [lookup_request (PInt 401186254) "album" (PInt 1)].
Proof.
  eexists. split; [vm_compute; reflexivity|].
  refine (proj2 (proj2 (X15_get_album (P := Sample.answering PNone) _
                          (PStr "song") _)) _ (PInt 500)); reflexivity.
Defined.

Lemma get_music_videos_lookup {P : Platform} (self : Item.t) (limit ty : pyval) :
  Item.type self = Some ty -> ty <> PStr "musicVideo" ->
  get_music_videos self limit =
  (items <~ get (Lookup (Item.id self) (PStr "musicVideo") PNone limit) ;;
   lift match items with
        | [] => Raise Nothing_found
        | _ :: rest => Ok (Objects rest)
        end).
Proof.
  intros Ht Hne. unfold get_music_videos, self_type. rewrite Ht, lift_bind_io.
  apply py_eq_PStr_false in Hne. rewrite Hne.
  apply bind_io_ext. now intros [|first rest].
Qed.

(** X16.  [get_music_videos] returns the item itself when its type is
    [musicVideo].  On any other item it sends one lookup of the item's
    identifier with the entity filter [musicVideo] and the given limit,
    raises [ServiceException] with the message [Nothing found!] when nothing
    is found, and otherwise returns the objects found without the first. *)
Theorem X16_get_music_videos {P : Platform} (self : Item.t) (limit ty : pyval) :
  Item.type self = Some ty ->
  let found := get (Lookup (Item.id self) (PStr "musicVideo") PNone limit) in
  (ty = PStr "musicVideo" -> get_music_videos self limit = ([], Ok Self)) /\
  (ty <> PStr "musicVideo" ->
   trace (get_music_videos self limit) =
   [lookup_request (Item.id self) "musicVideo" limit] /\
   (outcome found = Ok [] ->
    outcome (get_music_videos self limit) = Raise Nothing_found) /\
   (forall first rest,
       outcome found = Ok (first :: rest) ->
       outcome (get_music_videos self limit) = Ok (Objects rest)) /\
   (forall e, outcome found = Raise e ->
              outcome (get_music_videos self limit) = Raise e)).
Proof.
  intros Ht found. split.
  - intros ->. unfold get_music_videos, self_type.
    now rewrite Ht, lift_bind_io.
  - intros Hne. rewrite (get_music_videos_lookup self limit ty Ht Hne).
    fold found.
    destruct (after_lookup found
                (fun items => match items with
                              | [] => Raise Nothing_found
                              | _ :: rest => Ok (Objects rest)
                              end)) as (Htrace & Hout).
    rewrite Htrace, Hout. split; [|split; [|split]].
    + apply lookup_trace. discriminate.
    + now intros ->.
    + now intros first rest ->.
    + now intros e ->.
Qed.

Lemma X16_witness :
  exists self,
    Item._set (Item.__init__ (PInt 136975)) Sample.beatles = Ok self /\
    outcome (get_music_videos
               (P := Sample.answering (Sample.envelope []))
               self (PInt 500)) = Raise Nothing_found.
Proof.
  eexists. split; [vm_compute; reflexivity|].
  refine (proj1 (proj2 (proj2 (X16_get_music_videos
                                 (P := Sample.answering (Sample.envelope []))
                                 _ (PInt 500) (PStr "artist") _) _)) _).
  - reflexivity.
  - discriminate.
  - reflexivity.
Defined.






(* ================================================================== *)
(** * The requests of the convenience functions *)
(* ================================================================== *)

Lemma number_offset (offset : pyval) :
  number offset -> py_gt_zero offset = Ok (positive_offset offset).
Proof.
  destruct offset; simpl; try contradiction; reflexivity.
Qed.

Lemma search_with_trace {P : Platform}
  (query media entity limit offset order store : pyval) :
  number offset ->
  trace (search_with query media entity limit offset order store) =
  [search_request query store media (when (truthy entity) "entity" entity)
     limit (when (positive_offset offset) "offset" offset)
     (when (is_not_None order) "order" order)].
Proof.
  intros Hn. unfold search_with, Search.
  rewrite (number_offset offset Hn). cbn [bind]. rewrite lift_bind_io, get_trace.
  unfold search_request, when. cbn [truthy].
  destruct (truthy entity), (positive_offset offset), order; reflexivity.
Qed.

(** X18.  What the search functions send.  With a number as offset each
    of them executes one [search] request whose parameters are, in this
    order: [term], [country], [media], the [entity] filter ([song], [album],
    [musicArtist]; none for the generic [search]), [limit], [offset] only
    when it is positive, [order] only when it is not [None], and the fixed
    [lang=en_us], [version=2], [explicit=Yes].  [search_song] is
    [search_track]. *)
Theorem X18_search_requests {P : Platform}
  (query limit offset order store : pyval) :
  number offset ->
  let off := when (positive_offset offset) "offset" offset in
  let ord := when (is_not_None order) "order" order in
  trace (search_track query limit offset order store) =
    [search_request query store (PStr "music") [("entity", PStr "song")]
       limit off ord] /\
  search_song query limit offset order store =
    search_track query limit offset order store /\
  trace (search_album query limit offset order store) =
    [search_request query store (PStr "music") [("entity", PStr "album")]
       limit off ord] /\
  trace (search_artist query limit offset order store) =
    [search_request query store (PStr "music")
       [("entity", PStr "musicArtist")] limit off ord] /\
  (forall media,
      trace (search query media limit offset order store) =
      [search_request query store media [] limit off ord]).
Proof.
  intros Hn off ord. repeat split.
  - apply (search_with_trace query (PStr "music") (PStr "song")); exact Hn.
  - apply (search_with_trace query (PStr "music") (PStr "album")); exact Hn.
  - apply (search_with_trace query (PStr "music") (PStr "musicArtist")); exact Hn.
  - intros media. apply (search_with_trace query media PNone); exact Hn.
Qed.

Lemma X18_witness :
  trace (search_album (P := Sample.answering (Sample.envelope []))
           (PStr "Abbey Road") (PInt 100) (PInt 0) PNone (PStr COUNTRY)) =
  [{| params := [("term", PStr "Abbey Road"); ("country", PStr "US");
                 ("media", PStr "music"); ("entity", PStr "album");
                 ("limit", PInt 100); ("lang", PStr "en_us");
                 ("version", PStr "2"); ("explicit", PStr "Yes")];
      method := "search" |}].
Proof.
  exact (proj1 (proj2 (proj2 (X18_search_requests
                                (P := Sample.answering (Sample.envelope []))
                                (PStr "Abbey Road") (PInt 100) (PInt 0) PNone
                                (PStr COUNTRY) I)))).
Defined.

(** X19.  An offset that is not a number (a string such as ['10'], or
    [None]) cannot be compared with zero: every search function then raises
    [TypeError] and no request is executed. *)
Theorem X19_search_rejects_non_numeric_offset {P : Platform}
  (query limit offset order store : pyval) :
  ~ number offset ->
  search_track query limit offset order store = ([], Raise TypeError) /\
  search_album query limit offset order store = ([], Raise TypeError) /\
  search_artist query limit offset order store = ([], Raise TypeError) /\
  (forall media,
      search query media limit offset order store = ([], Raise TypeError)).
Proof.
  intros Hn.
  assert (forall media entity,
             search_with query media entity limit offset order store =
             ([], Raise TypeError)) as H.
  { intros media entity. unfold search_with, Search.
    destruct offset; simpl in Hn; try (exfalso; now apply Hn); reflexivity. }
  repeat split; try intros media; apply H.
Qed.

Lemma X19_witness :
  search_album (P := Sample.answering (Sample.envelope []))
    (PStr "Abbey Road") (PInt 100) (PStr "10") PNone (PStr COUNTRY)
  = ([], Raise TypeError).
Proof.
  apply (X19_search_rejects_non_numeric_offset
           (P := Sample.answering (Sample.envelope []))
           (PStr "Abbey Road") (PInt 100) (PStr "10") PNone (PStr COUNTRY)).
  simpl. tauto.
Defined.

(** X20.  What [lookup] sends: always exactly one [lookup] request,
    with [id] first and [limit] last; [entity] and [country] are sent only
    when they are truthy, so an empty string is left out like [None]. *)
Theorem X20_lookup_request {P : Platform} (id entity country limit : pyval) :
  trace (lookup id entity country limit) =
  [{| params := ([("id", id)] ++ when (truthy entity) "entity" entity
                 ++ when (truthy country) "country" country
                 ++ [("limit", limit)])%list;
      method := "lookup" |}].
Proof.
  unfold lookup. rewrite trace_bind_io, get_trace.
  assert (match outcome (get (Lookup id entity country limit)) with
          | Ok a =>
              trace match a with
                    | [] => lift (Raise Nothing_found)
                    | first :: _ => lift (Ok first)
                    end
          | Raise _ => []
          end = []) as ->.
  { destruct (outcome (get (Lookup id entity country limit))) as [[|first rest]|e];
      reflexivity. }
  unfold Lookup, when. cbn [Lookup_base _method].
  destruct (truthy entity), (truthy country); reflexivity.
Qed.

Lemma dict_get_app_fresh (k : string) (d r : dict) :
  ~ In k (dict_keys d) -> dict_get k (d ++ r)%list = dict_get k r.
Proof.
  induction d as [|[k0 v0] d IH]; simpl; [reflexivity|].
  intros H. destruct (String.eqb k k0) eqn:E.
  - apply String.eqb_eq in E. subst. tauto.
  - apply IH. tauto.
Qed.

Lemma dict_set_fresh (k : string) (v : pyval) (d : dict) :
  ~ In k (dict_keys d) -> dict_set k v d = (d ++ [(k, v)])%list.
Proof.
  induction d as [|[k0 v0] d IH]; simpl; [reflexivity|].
  intros H. destruct (String.eqb k k0) eqn:E.
  - apply String.eqb_eq in E. subst. tauto.
  - f_equal. apply IH. tauto.
Qed.

Lemma get_params_copy_from (terms done rest : dict) :
  terms = (done ++ rest)%list ->
  NoDup (dict_keys terms) ->
  fold_left
    (fun params key =>
       match dict_get key terms with
       | Some v => dict_set key v params
       | None => params
       end) (dict_keys rest) done = terms.
Proof.
  revert done. induction rest as [|[k v] rest IH]; intros done Ht Hnd.
  - simpl. now rewrite app_nil_r in Ht.
  - cbn [dict_keys map fst fold_left].
    assert (~ In k (dict_keys done)) as Hfresh.
    { subst terms. unfold dict_keys in Hnd |- *. rewrite map_app in Hnd.
      cbn [map fst] in Hnd. intros Hin.
      apply NoDup_remove_2 in Hnd. apply Hnd. apply in_or_app. now left. }
    assert (dict_get k terms = Some v) as ->.
    { subst terms. rewrite dict_get_app_fresh by exact Hfresh.
      simpl. now rewrite String.eqb_refl. }
    rewrite dict_set_fresh by exact Hfresh.
    apply IH; [|exact Hnd]. rewrite Ht, <- app_assoc. reflexivity.
Qed.

(** X21.  [_get_params] hands the request a faithful copy of the search
    terms: for a mapping (no key twice), the same keys with the same values
    in the same order. *)
Theorem X21_get_params_copies_the_terms (self : BaseObject) :
  NoDup (dict_keys (_search_terms self)) ->
  _get_params self = _search_terms self.
Proof.
  intros H. unfold _get_params. now apply get_params_copy_from.
Qed.

Lemma X21_witness :
  _get_params (Lookup (PInt 136975) (PStr "album") PNone (PInt 1)) =
  [("id", PInt 136975); ("entity", PStr "album"); ("limit", PInt 1)].
Proof.
  apply (X21_get_params_copies_the_terms
           (Lookup (PInt 136975) (PStr "album") PNone (PInt 1))).
  repeat constructor; simpl; intuition discriminate.
Defined.

(* ================================================================== *)
(** * Lazy name and identifier *)
(* ================================================================== *)

(** X22.  [get_name] resolves the name on first use: a truthy name is
    returned as it is; otherwise the name is read from the record,
    [collectionName] first, [artistName] second, and stored.  The call
    changes nothing but the name, returns the name the object then has, and
    asking again returns the same and changes nothing. *)
Theorem X22_get_name_is_lazy_and_stable (self self' : Item.t) (v : pyval) :
  get_name self = Ok (self', v) ->
  Item.name self' = v /\
  Item.id self' = Item.id self /\
  Item.url self' = Item.url self /\
  same_record self' self /\
  get_name self' = Ok (self', v) /\
  (truthy (Item.name self) = true -> self' = self) /\
  (forall d,
      truthy (Item.name self) = false ->
      Item.json self = Some (PDict d) ->
      v = match dict_get "collectionName" d with
          | Some c => c
          | None =>
              match dict_get "artistName" d with
              | Some a => a
              | None => Item.name self
              end
          end).
Proof.
  unfold get_name, __repr__. intros H.
  destruct (truthy (Item.name self)) eqn:Hn.
  { injection H as <- <-. rewrite Hn.
    repeat split; try reflexivity; discriminate. }
  unfold self_json in H |- *.
  destruct (Item.json self) as [j|] eqn:Ej; [|discriminate]. cbn [bind] in H.
  apply bind_Ok in H. destruct H as (has & Ehas & H). destruct has.
  - apply bind_Ok in H. destruct H as (c & Ec & H). injection H as <- <-.
    unfold _set_name. cbn. repeat split; try discriminate.
    + destruct (truthy c); [reflexivity|].
      rewrite Ej. cbn [bind]. rewrite Ehas. cbn [bind]. rewrite Ec. reflexivity.
    + intros d _ Hd. injection Hd as ->.
      apply py_getitem_dict in Ec. now rewrite Ec.
  - apply bind_Ok in H. destruct H as (has & Ehas' & H). destruct has.
    + apply bind_Ok in H. destruct H as (a & Ea & H). injection H as <- <-.
      unfold _set_name. cbn. repeat split; try discriminate.
      * destruct (truthy a); [reflexivity|].
        rewrite Ej. cbn [bind]. rewrite Ehas. cbn [bind]. rewrite Ehas'.
        cbn [bind]. rewrite Ea. reflexivity.
      * intros d _ Hd. injection Hd as ->.
        cbn [py_in] in Ehas. unfold dict_has in Ehas.
        apply py_getitem_dict in Ea. rewrite Ea.
        destruct (dict_get "collectionName" d); [discriminate | reflexivity].
    + injection H as <- <-. rewrite Hn, Ej. cbn [bind].
      rewrite Ehas. cbn [bind]. rewrite Ehas'. cbn [bind].
      repeat split; try reflexivity; try discriminate.
      intros d _ Hd. injection Hd as ->.
      cbn [py_in] in Ehas, Ehas'. unfold dict_has in Ehas, Ehas'.
      destruct (dict_get "collectionName" d); [discriminate|].
      destruct (dict_get "artistName" d); [discriminate | reflexivity].
Qed.

Lemma X22_witness :
  exists i i',
    Item._set (Item.__init__ (PInt 7)) (PDict Fixture.podcast_record) = Ok i /\
    get_name i = Ok (i', PStr "A Show") /\
    get_name i' = Ok (i', PStr "A Show").
Proof.
  eexists. eexists. split; [vm_compute; reflexivity|].
  match goal with
  | |- get_name ?i = _ /\ _ =>
      pose proof (X22_get_name_is_lazy_and_stable i _ (PStr "A Show")
                    ltac:(vm_compute; reflexivity)) as H
  end.
  split; [vm_compute; reflexivity|].
  exact (proj1 (proj2 (proj2 (proj2 (proj2 H))))).
Defined.

(** X23.  [get_id] returns a truthy identifier as it is and leaves the
    object alone.  Only a falsy identifier ([None], zero, an empty string)
    is looked up again in the record, [collectionId] first, [artistId]
    second, and stored.  The call changes nothing but the identifier, and
    asking again returns the same and changes nothing. *)
Theorem X23_get_id_keeps_a_truthy_id (self self' : Item.t) (v : pyval) :
  get_id self = Ok (self', v) ->
  Item.id self' = v /\
  Item.name self' = Item.name self /\
  Item.url self' = Item.url self /\
  same_record self' self /\
  get_id self' = Ok (self', v) /\
  (truthy (Item.id self) = true -> self' = self /\ v = Item.id self) /\
  (forall d,
      truthy (Item.id self) = false ->
      Item.json self = Some (PDict d) ->
      v = match fallback_key d with
          | Some c => c
          | None => Item.id self
          end).
Proof.
  unfold get_id, fallback_key. intros H.
  destruct (truthy (Item.id self)) eqn:Hn.
  { injection H as <- <-. rewrite Hn.
    repeat split; try reflexivity; discriminate. }
  unfold self_json in H |- *.
  destruct (Item.json self) as [j|] eqn:Ej; [|discriminate]. cbn [bind] in H.
  apply bind_Ok in H. destruct H as (has & Ehas & H). destruct has.
  - apply bind_Ok in H. destruct H as (c & Ec & H). injection H as <- <-.
    unfold with_id. cbn. repeat split; try discriminate.
    + destruct (truthy c); [reflexivity|].
      rewrite Ej. cbn [bind]. rewrite Ehas. cbn [bind]. rewrite Ec. reflexivity.
    + intros d _ Hd. injection Hd as ->.
      apply py_getitem_dict in Ec. now rewrite Ec.
  - apply bind_Ok in H. destruct H as (has & Ehas' & H). destruct has.
    + apply bind_Ok in H. destruct H as (a & Ea & H). injection H as <- <-.
      unfold with_id. cbn. repeat split; try discriminate.
      * destruct (truthy a); [reflexivity|].
        rewrite Ej. cbn [bind]. rewrite Ehas. cbn [bind]. rewrite Ehas'.
        cbn [bind]. rewrite Ea. reflexivity.
      * intros d _ Hd. injection Hd as ->.
        cbn [py_in] in Ehas. unfold dict_has in Ehas.
        apply py_getitem_dict in Ea. rewrite Ea.
        destruct (dict_get "collectionId" d); [discriminate | reflexivity].
    + injection H as <- <-. rewrite Hn, Ej. cbn [bind].
      rewrite Ehas. cbn [bind]. rewrite Ehas'. cbn [bind].
      repeat split; try reflexivity; try discriminate.
      intros d _ Hd. injection Hd as ->.
      cbn [py_in] in Ehas, Ehas'. unfold dict_has in Ehas, Ehas'.
      destruct (dict_get "collectionId" d); [discriminate|].
      destruct (dict_get "artistId" d); [discriminate | reflexivity].
Qed.

Lemma X23_witness :
  exists i i',
    Item._set (Item.__init__ (PInt 0)) (PDict Fixture.podcast_record) = Ok i /\
    get_id i = Ok (i', PInt 7) /\
    get_id i' = Ok (i', PInt 7).
Proof.
  eexists. eexists. split; [vm_compute; reflexivity|].
  match goal with
  | |- get_id ?i = _ /\ _ =>
      pose proof (X23_get_id_keeps_a_truthy_id i _ (PInt 7)
                    ltac:(vm_compute; reflexivity)) as H
  end.
  split; [vm_compute; reflexivity|].
  exact (proj1 (proj2 (proj2 (proj2 (proj2 H))))).
Defined.

(* ================================================================== *)
(** * Further edge cases *)
(* ================================================================== *)

(** X24.  The price of an album falls back to the integer [0] for every
    falsy [collectionPrice], not only for null: zero of any numeric type,
    [False], an empty string or an empty list.  A truthy price on a
    populated album is always a number, since anything else makes
    population raise [TypeError]. *)
Theorem X24_album_price_of_falsy_values
  (self a : Album.t) (d : dict) (p : pyval) :
  Album._set self (PDict d) = Ok a ->
  dict_get "collectionPrice" d = Some p ->
  (truthy p = false -> Album.price a = Some (PInt 0)) /\
  (truthy p = true -> number p /\ py_round p 4 = Ok
     match Album.price a with Some v => v | None => PNone end).
Proof.
  intros H Hp. destruct (album_set_price _ _ _ H) as (p' & Hp' & Hprice).
  rewrite py_get_dict, Hp in Hp'. injection Hp' as <-.
  split; intros Ht; rewrite Ht in Hprice.
  - exact Hprice.
  - destruct (py_round p 4) as [price|e] eqn:Er; [|contradiction].
    rewrite Hprice. split; [|reflexivity].
    destruct p; simpl in Er |- *; try discriminate; exact I.
Qed.

Lemma X24_witness :
  exists a,
    Album._set (Album.__init__ (PInt 401186200))
      (Sample.abbey_road (PStr EmptyString)) = Ok a /\
    Album.price a = Some (PInt 0).
Proof.
  eexists. split; [vm_compute; reflexivity|].
  refine (proj1 (X24_album_price_of_falsy_values
                   (Album.__init__ (PInt 401186200)) _
                   [("wrapperType", PStr "collection");
                    ("collectionId", PInt 401186200);
                    ("collectionName", PStr "Abbey Road");
                    ("collectionPrice", PStr EmptyString);
                    ("currency", PStr "USD"); ("trackCount", PInt 17)]
                   (PStr EmptyString) _ _) _); reflexivity.
Defined.

Lemma get_entry_leaves_id (e : pyval) (id id' : option pyval) (o : obj) :
  get_entry e id = Ok (o, id') -> id' = Some (Item.id (as_item o)).
Proof.
  unfold get_entry. intros H. bind_inv H.
  destruct (py_eq v (PStr "artist")).
  { do 2 bind_inv H. injection H as <- <-.
    cbn [as_item]. now rewrite (artist_set_id _ _ _ E1). }
  destruct (py_eq v (PStr "collection")).
  { do 2 bind_inv H. injection H as <- <-.
    cbn [as_item]. now rewrite (album_set_id _ _ _ E1). }
  destruct (py_eq v (PStr "track")).
  { do 2 bind_inv H. injection H as <- <-.
    cbn [as_item]. now rewrite (track_set_id _ _ _ E1). }
  bind_inv H. destruct v0 as [w|]; [|discriminate].
  bind_inv H. injection H as <- <-.
  cbn [as_item]. now rewrite (item_set_id _ _ _ E1).
Qed.

(** X25.  The local [id] of the loop of [get] always holds the identifier
    of the object built last.  A record with another tag than the three
    known ones and with neither [collectionId] nor [artistId] does not rebind
    it: when such a record follows another one, the item built from it
    carries the identifier of the object before it. *)
Theorem X25_item_without_id_inherits_the_previous
  (e : pyval) (d : dict) (id0 id1 id2 : option pyval) (o o' : obj) :
  get_entry e id0 = Ok (o, id1) ->
  ~ known_tag d ->
  fallback_key d = None ->
  get_entry (PDict d) id1 = Ok (o', id2) ->
  id1 = Some (Item.id (as_item o)) /\
  (exists i, o' = AnItem i) /\
  Item.id (as_item o') = Item.id (as_item o).
Proof.
  intros He Hk Hf Hd.
  pose proof (get_entry_leaves_id _ _ _ _ He) as H1.
  pose proof (get_entry_leaves_id _ _ _ _ Hd) as H2.
  split; [exact H1|].
  rewrite get_entry_dict, Hf, H1 in Hd.
  rewrite known_tag_dec in Hk.
  destruct (py_eq (tag d) (PStr "artist")); [exfalso; now apply Hk|].
  destruct (py_eq (tag d) (PStr "collection")); [exfalso; now apply Hk|].
  destruct (py_eq (tag d) (PStr "track")); [exfalso; now apply Hk|].
  bind_inv Hd. injection Hd as <- _.
  split; [eauto|]. cbn. now apply item_set_id in E.
Qed.

Lemma X25_witness :
  exists o i,
    get_loop [Sample.beatles; PDict [("kind", PStr "podcast")]] None []
    = Ok [o; AnItem i] /\
    Item.id i = Item.id (as_item o).
Proof.
  eexists. eexists. split; [vm_compute; reflexivity|].
  refine (proj2 (proj2 (X25_item_without_id_inherits_the_previous
                          Sample.beatles [("kind", PStr "podcast")]
                          None _ _ _ (AnItem _) _ _ _ _))).
  - vm_compute. reflexivity.
  - intros [H|[H|H]]; discriminate.
  - reflexivity.
  - vm_compute. reflexivity.
Defined.

(* ================================================================== *)
(** * The objects [get] builds *)
(* ================================================================== *)

(** X26.  When the service answers with a success envelope whose records
    each name their identifier, [get] returns a list exactly when every
    record can be turned into its variant, and the list then holds those
    variants in the order of the records: an [Artist] for the tag [artist],
    an [Album] for [collection], a [Track] for [track], an [Item] otherwise,
    each built with the variant's identifier field and populated from the
    whole record. *)
Theorem X26_get_builds_variants_in_order {P : Platform}
  (self : BaseObject) (env : dict) (ds : list dict) (l : list obj) :
  outcome (_request self) = Ok (PDict env) ->
  envelope_of env (map PDict ds) ->
  Forall carries_id ds ->
  (outcome (get self) = Ok l <-> Forall2 variant_of ds l) /\
  (Forall2 variant_of ds l ->
   Forall2 (fun d o => entry_id d (Item.id (as_item o))) ds l).
Proof.
  intros Hr He Hc. rewrite get_outcome, Hr. cbn [bind].
  rewrite (get_results_envelope _ _ He). split.
  - now apply get_loop_variants.
  - clear. intros H. induction H; constructor; auto using variant_id.
Qed.

Lemma X26_witness :
  exists l,
    outcome (get (P := Sample.answering (Sample.envelope (map PDict Sample.mixed)))
               (Lookup (PInt 136975) PNone PNone (PInt 500))) = Ok l /\
    Forall2 variant_of Sample.mixed l.
Proof.
  eexists. split; [vm_compute; reflexivity|].
  refine (proj1 (proj1 (X26_get_builds_variants_in_order
                          (P := Sample.answering
                                  (Sample.envelope (map PDict Sample.mixed)))
                          (Lookup (PInt 136975) PNone PNone (PInt 500))
                          [("resultCount", PInt 3);
                           ("results", PList (map PDict Sample.mixed))]
                          Sample.mixed _ _ _ _)) _).
  - reflexivity.
  - split; [reflexivity | split; [discriminate | reflexivity]].
  - apply Forall_cons; [left; left; reflexivity|].
    apply Forall_cons; [left; right; right; reflexivity|].
    apply Forall_cons; [right; discriminate|].
    apply Forall_nil.
  - vm_compute. reflexivity.
Defined.
